(** * The [download] command of the exercism command-line client

    A shallow embedding of [cmd/download.go] and a verification of what
    the command's specification says about it.

    The command builds one API request, reads a JSON envelope, derives a
    local directory from it and then fetches every file of the envelope
    with one GET each.  The embedding keeps that shape:

    - [filepath], [url]: the parts of Go's [path/filepath] and [net/url]
      that the command calls, following the library's sources;
    - [rt]: the process as the command sees it (file system, standard
      streams, open handles, the deferred calls of the running function)
      and a small monad for statements that may end the process;
    - [cmd]: the declarations of [download.go], in the order of the file.

    Packages of the repository that [download.go] imports but that are not
    part of the verified sources ([api], [config], [workspace], the rest of
    [cmd]) appear as fields of an environment record or as definitions
    whose comment says which sentence of the specification they follow. *)

From Stdlib Require Import ZArith Ascii String.
From Stdlib.Strings Require Import Byte.
From stdpp Require Import base option list strings gmap.

Local Open Scope Z_scope.

Global Instance byte_eq_dec : EqDecision byte := Byte.byte_eq_dec.

(** ** path/filepath *)

Module filepath.

(** [runtime.GOOS], as far as [path/filepath] tells systems apart. *)
Inductive OS : Type := unix | windows.

Global Instance OS_eq_dec : EqDecision OS.
Proof. solve_decision. Defined.

Section platform.

Variable goos : OS.

(** [filepath.Separator] *)
Definition Separator : ascii :=
  match goos with
  | unix => "/"%char
  | windows => "\"%char
  end.

(** [os.IsPathSeparator]: the platform's separator, and the slash, which
    Windows accepts too.  Volume names are not modelled: every path is
    taken to have an empty volume, as all paths have on Unix. *)
Definition IsPathSeparator (c : ascii) : bool :=
  Ascii.eqb c Separator || Ascii.eqb c "/"%char.

(** [strings.ReplaceAll] for a pattern and a replacement of one byte. *)
Fixpoint ReplaceAll (s : string) (old new : ascii) : string :=
  match s with
  | EmptyString => EmptyString
  | String c s' =>
      String (if Ascii.eqb c old then new else c) (ReplaceAll s' old new)
  end.

(** [[
    func FromSlash(path string) string {
        if Separator == '/' { return path }
        return strings.ReplaceAll(path, "/", string(Separator))
    }
    ]] *)
Definition FromSlash (path : string) : string :=
  if Ascii.eqb Separator "/"%char then path
  else ReplaceAll path "/"%char Separator.

(** [[
    func ToSlash(path string) string {
        if Separator == '/' { return path }
        return strings.ReplaceAll(path, string(Separator), "/")
    }
    ]] *)
Definition ToSlash (path : string) : string :=
  if Ascii.eqb Separator "/"%char then path
  else ReplaceAll path Separator "/"%char.

(** The path name elements of a path: the pieces between separators,
    empty ones included, so that ["a//b"] has the elements
    ["a"; ""; "b"] and the empty path has the one element [""]. *)
Fixpoint elements (path : string) : list string :=
  match path with
  | EmptyString => [EmptyString]
  | String c rest =>
      if IsPathSeparator c then EmptyString :: elements rest
      else match elements rest with
           | e :: es => String c e :: es
           | [] => [String c EmptyString]
           end
  end.

(** [rooted := os.IsPathSeparator(path[0])] *)
Definition rooted (path : string) : bool :=
  match path with
  | EmptyString => false
  | String c _ => IsPathSeparator c
  end.

(** One turn of the loop of [Clean].  [out] is the output buffer as the
    list of the elements written so far, the last one first.

    - an empty element and ["."] are skipped;
    - [".."] removes the last element when that is a real one ("can
      backtrack"); at the start of a rooted path it is dropped; at the
      start of a relative path, or after other leading [".."], it is
      kept;
    - any other element is copied. *)
Definition cleanStep (isRooted : bool) (out : list string) (e : string)
  : list string :=
  if decide (e = "" ∨ e = ".") then out
  else if decide (e = "..") then
    match out with
    | last :: before =>
        if decide (last = "..") then
          (if isRooted then out else e :: out)
        else before
    | [] => if isRooted then [] else [e]
    end
  else e :: out.

(** The elements of the cleaned path, the first one first. *)
Definition cleanElements (path : string) : list string :=
  reverse (foldl (cleanStep (rooted path)) [] (elements path)).

(** [strings.Join(elems, string(Separator))] *)
Fixpoint joinElements (elems : list string) : string :=
  match elems with
  | [] => ""
  | [e] => e
  | e :: rest => e +:+ String Separator (joinElements rest)
  end.

(** [[
    func Clean(path string) string
    ]]
    The shortest path equivalent to [path] by lexical processing: a
    leading separator when the path is rooted, then the cleaned
    elements with one separator between them; ["."] when that is
    empty. *)
Definition Clean (path : string) : string :=
  let out :=
    (if rooted path then String Separator "" else "")
      +:+ joinElements (cleanElements path) in
  if decide (out = "") then "." else out.

(** [[
    func join(elem []string) string {
        for i, e := range elem {
            if e != "" {
                return Clean(strings.Join(elem[i:], string(Separator)))
            }
        }
        return ""
    }
    ]] *)
Fixpoint Join (elem : list string) : string :=
  match elem with
  | [] => ""
  | e :: rest =>
      if decide (e = "") then Join rest else Clean (joinElements elem)
  end.

(** [path[:i+1]] for the index [i] of the last separator of [path]:
    the empty string when [path] has no separator. *)
Fixpoint uptoLastSeparator (path : string) : string :=
  match path with
  | EmptyString => EmptyString
  | String c rest =>
      let r := uptoLastSeparator rest in
      if decide (r = "") then
        (if IsPathSeparator c then String c "" else "")
      else String c r
  end.

(** [[
    func Dir(path string) string {
        vol := VolumeName(path)
        i := len(path) - 1
        for i >= len(vol) && !os.IsPathSeparator(path[i]) { i-- }
        dir := Clean(path[len(vol) : i+1])
        ...
        return vol + dir
    }
    ]] *)
Definition Dir (path : string) : string :=
  Clean (uptoLastSeparator path).

(** An element is plain when no separator occurs in it, and real when
    [Clean] does not skip it. *)
Definition plain (e : string) : Prop :=
  Forall (λ c, IsPathSeparator c = false) (list_ascii_of_string e).

Definition real (e : string) : Prop := ¬ (e = "" ∨ e = ".").

(** The shape of the output buffer of [Clean], the last element first:
    plain real elements, those that are [".."] all at the start of the
    path, and none of them in a rooted path. *)
Definition cleaned (isRooted : bool) (out : list string) : Prop :=
  Forall (λ e, plain e ∧ real e) out
  ∧ ∃ (n : nat) (body : list string),
      out = body ++ replicate n ".."
      ∧ (".." ∉ body)
      ∧ (isRooted = true → n = 0%nat).

(** A path is slash-separated, as the paths of the wire are, when the
    slash is the only separator in it. *)
Definition slashSeparated (path : string) : bool :=
  forallb (λ c, negb (IsPathSeparator c) || Ascii.eqb c "/"%char)
    (list_ascii_of_string path).

(** A path is within a directory when, both cleaned, they are rooted
    alike and the path's elements are the directory's followed by
    elements none of which is [".."]. *)
Definition within (dir path : string) : bool :=
  let d := cleanElements dir in
  let p := cleanElements path in
  bool_decide (rooted dir = rooted path)
  && bool_decide (take (length d) p = d)
  && bool_decide (".." ∉ drop (length d) p).

End platform.

End filepath.

(** ** net/url *)

Module url.

(** [shouldEscape(c, encodeQueryComponent)]: everything is escaped but
    the unreserved characters of RFC 3986, section 2.3. *)
Definition shouldEscape (c : ascii) : bool :=
  let n := N_of_ascii c in
  negb ((97 <=? n) && (n <=? 122) || (65 <=? n) && (n <=? 90)
        || (48 <=? n) && (n <=? 57)
        || (n =? 45) || (n =? 95) || (n =? 46) || (n =? 126))%N.

(** [upperhex[n]] for [n < 16]. *)
Definition upperhex (n : N) : ascii :=
  default "0"%char (String.get (N.to_nat n) "0123456789ABCDEF").

(** [QueryEscape]: a space becomes '+', any other byte that must be
    escaped becomes '%' and its two upper-case hexadecimal digits. *)
Fixpoint QueryEscape (s : string) : string :=
  match s with
  | EmptyString => EmptyString
  | String c rest =>
      if Ascii.eqb c " "%char then String "+"%char (QueryEscape rest)
      else if shouldEscape c then
        let n := N_of_ascii c in
        String "%"%char
          (String (upperhex (n / 16)%N)
             (String (upperhex (n mod 16)%N) (QueryEscape rest)))
      else String c (QueryEscape rest)
  end.

(** [type Values map[string][]string], kept as an association list with
    one entry for each key. *)
Definition Values : Type := list (string * list string).

(** [v[key]], [nil] for a key that is not in the map. *)
Fixpoint Lookup (v : Values) (key : string) : list string :=
  match v with
  | [] => []
  | (k, vs) :: rest => if decide (k = key) then vs else Lookup rest key
  end.

(** [func (v Values) Add(key, value string) { v[key] = append(v[key], value) }] *)
Fixpoint Add (v : Values) (key value : string) : Values :=
  match v with
  | [] => [(key, [value])]
  | (k, vs) :: rest =>
      if decide (k = key) then (k, vs ++ [value]) :: rest
      else (k, vs) :: Add rest key value
  end.

(** [slices.Sort(keys)]: insertion into a list sorted by the byte order
    of strings. *)
Fixpoint insertSorted (k : string) (keys : list string) : list string :=
  match keys with
  | [] => [k]
  | k' :: rest =>
      if String.leb k k' then k :: keys else k' :: insertSorted k rest
  end.

Definition sortedKeys (v : Values) : list string :=
  foldr insertSorted [] (v.*1).

(** The pieces of the encoded form joined by '&'. *)
Fixpoint joinAmp (parts : list string) : string :=
  match parts with
  | [] => ""
  | [p] => p
  | p :: rest => p +:+ "&" +:+ joinAmp rest
  end.

(** [[
    func (v Values) Encode() string
    ]]
    "URL encoded" form, [bar=baz&foo=quux], sorted by key. *)
Definition Encode (v : Values) : string :=
  joinAmp
    (k ← sortedKeys v;
     (λ x, QueryEscape k +:+ "=" +:+ QueryEscape x) <$> Lookup v k).

(** [[
    type URL struct { ...; RawQuery string }
    ]]
    [Location] stands for the scheme, host and path, all of which the
    command takes as they were configured. *)
Record URL : Type := mkURL { Location : string; RawQuery : string }.

(** [func (u *URL) String() string] *)
Definition String_ (u : URL) : string :=
  if decide (RawQuery u = "") then Location u
  else Location u +:+ "?" +:+ RawQuery u.

(** [func (u *URL) Query() Values]: the parsed [RawQuery].  Every URL
    the command calls it on comes fresh from [NewRequest] and has an
    empty [RawQuery], for which [ParseQuery] gives the empty map; that
    is the only case given here, any other query parses to what
    [unparsed] stands for. *)
Definition Query (unparsed : string → Values) (u : URL) : Values :=
  if decide (RawQuery u = "") then [] else unparsed (RawQuery u).

End url.

(** ** The process: errors, outcomes, the world *)

Module rt.

(** An [error] value, by its message. *)
Definition Error : Type := string.

(** The [(value, error)] pair a Go function returns, of which exactly
    one half is meaningful. *)
Inductive Result (A : Type) : Type :=
| Ok (a : A)
| Err (e : Error).
Arguments Ok {A} a.
Arguments Err {A} e.

(** What holds an operating-system handle until it is closed: the body
    of the response to a GET, and a file opened by [os.Create]. *)
Inductive Resource : Type :=
| Body (url : string)
| File (path : string).

Global Instance Resource_eq_dec : EqDecision Resource.
Proof. solve_decision. Defined.

Record World : Type := mkWorld {
  files : gmap string (list byte);  (* regular files and their content *)
  dirs : gset string;               (* directories asked of [os.MkdirAll] *)
  requests : list string;           (* URLs requested, the oldest first *)
  stderr : string;                  (* everything written to [os.Stderr] *)
  stdout : string;                  (* everything written to [Out] *)
  opened : list Resource;           (* handles not closed, the newest first *)
  deferred : list Resource          (* pending [defer x.Close()] of the
                                       running function, the newest first *)
}.

(** How a statement ends. *)
Inductive Outcome (A : Type) : Type :=
| Next (a : A)          (* control goes on to the next statement *)
| Exit (status : Z)     (* [os.Exit(status)] *)
| Fatal (err : Error).  (* the fatal-error handler took over *)
Arguments Next {A} a.
Arguments Exit {A} status.
Arguments Fatal {A} err.

(** Modelled from the spec: the handler of fatal errors belongs to the
    rest of package [cmd]; of it section 7 says that an error is
    "reported to standard error and the process terminated with
    non-zero status".  [Fatal err] is that end, with status 1. *)
Definition exitStatus {A} (o : Outcome A) : Z :=
  match o with
  | Next _ => 0
  | Exit status => status
  | Fatal _ => 1
  end.

Definition M (A : Type) : Type := World → World * Outcome A.

Definition ret {A} (a : A) : M A := λ w, (w, Next a).

Definition bind {A B} (m : M A) (k : A → M B) : M B :=
  λ w, match m w with
       | (w', Next a) => k a w'
       | (w', Exit status) => (w', Exit status)
       | (w', Fatal err) => (w', Fatal err)
       end.

Declare Scope go_scope.
Delimit Scope go_scope with go.
Notation "x <- m ;; k" := (bind m (λ x, k))
  (at level 100, m at next level, right associativity) : go_scope.
Notation "m ;; k" := (bind m (λ _, k))
  (at level 100, right associativity) : go_scope.

(** [for _, x := range xs { body }] *)
Fixpoint forRange {A} (xs : list A) (body : A → M unit) : M unit :=
  match xs with
  | [] => ret tt
  | x :: rest => bind (body x) (λ _, forRange rest body)
  end.

(** [os.Exit(status)]: the process ends; deferred calls do not run. *)
Definition Exit_ {A} (status : Z) : M A := λ w, (w, Exit status).

(** [fmt.Fprintf(os.Stderr, ...)], the text already formatted. *)
Definition Eprint (text : string) : M unit :=
  λ w, (mkWorld (files w) (dirs w) (requests w) (stderr w +:+ text)
          (stdout w) (opened w) (deferred w), Next tt).

(** [fmt.Fprintf(Out, ...)] *)
Definition Oprint (text : string) : M unit :=
  λ w, (mkWorld (files w) (dirs w) (requests w) (stderr w)
          (stdout w +:+ text) (opened w) (deferred w), Next tt).

(** [os.MkdirAll(path, perm)].  The command never looks at its error. *)
Definition MkdirAll (path : string) : M unit :=
  λ w, (mkWorld (files w) ({[path]} ∪ dirs w) (requests w) (stderr w)
          (stdout w) (opened w) (deferred w), Next tt).

(** [os.Create(name)]: creates or truncates the named file and opens
    it.  Whether the system refuses is for [refuses] to say. *)
Definition Create (refuses : string → option Error) (name : string)
  : M (Result Resource) :=
  λ w, match refuses name with
       | Some e => (w, Next (Err e))
       | None =>
           (mkWorld (<[name := []]> (files w)) (dirs w) (requests w)
              (stderr w) (stdout w) (File name :: opened w) (deferred w),
            Next (Ok (File name)))
       end.

(** Writing to an open file appends to it. *)
Definition write (name : string) (data : list byte) : M unit :=
  λ w, (mkWorld (<[name := default [] (files w !! name) ++ data]> (files w))
          (dirs w) (requests w) (stderr w) (stdout w) (opened w)
          (deferred w), Next tt).

(** The handles but the newest one of [r]. *)
Fixpoint release (r : Resource) (hs : list Resource) : list Resource :=
  match hs with
  | [] => []
  | h :: rest => if decide (h = r) then rest else h :: release r rest
  end.

(** [x.Close()] *)
Definition Close (r : Resource) : M unit :=
  λ w, (mkWorld (files w) (dirs w) (requests w) (stderr w) (stdout w)
          (release r (opened w)) (deferred w), Next tt).

(** [defer x.Close()]: pushed on the function's stack of deferred
    calls. *)
Definition deferClose (r : Resource) : M unit :=
  λ w, (mkWorld (files w) (dirs w) (requests w) (stderr w) (stdout w)
          (opened w) (r :: deferred w), Next tt).

(** The function returns: its deferred calls run, the last one first. *)
Definition runDeferred : M unit :=
  λ w, forRange (deferred w) Close
         (mkWorld (files w) (dirs w) (requests w) (stderr w) (stdout w)
            (opened w) []).

(** The line feed. *)
Definition LF : string := String (ascii_of_nat 10) "".

End rt.

(** ** net/http *)

Module http.

Definition StatusOK : Z := 200.

Record Request : Type := mkRequest { Method : string; URL : url.URL }.

Record Response : Type := mkResponse {
  StatusCode : Z;
  Header : gmap string (list string);
  Body : list byte;               (* the bytes the body delivers *)
  BodyErr : option rt.Error       (* the error after them, if not EOF *)
}.

(** [func (h Header) Get(key string) string]: the first value of the
    key, [""] when there is none. *)
Definition Get (h : gmap string (list string)) (key : string) : string :=
  match h !! key with
  | Some (v :: _) => v
  | _ => ""
  end.

End http.

(** ** Packages of the repository outside the verified sources

    [api], [config] and [workspace] are imported by [download.go] and are
    not among the verified sources.  What they do is taken from the
    specification, and what the specification leaves open is an argument
    of the definition. *)

Module config.

(** Modelled from the spec: [cfg.URL("download", slug)] of the absent
    package [config].  Section 6 gives the first request as
    "GET <configured-base>/download/<uuid|latest>" and section 4.1
    builds the endpoint from "download" and the slug. *)
Definition URL (base key slug : string) : string :=
  base +:+ "/" +:+ key +:+ "/" +:+ slug.

End config.

Module api.
Import rt.

(** [*api.Client], by the workspace of its [UserConfig]. *)
Record Client : Type := mkClient { Workspace : string }.

(** Modelled from the spec: [client.NewRequest(method, url, nil)] of the
    absent package [api], which by section 4.1 fails with "a transport
    error if ... the request cannot be built".  The URLs [rejects] names
    are those that cannot; for the others the request is for the given
    URL, whose query is empty: no configured endpoint carries one. *)
Definition NewRequest (rejects : string → option Error)
    (method url : string) : Result http.Request :=
  match rejects url with
  | Some e => Err e
  | None => Ok (http.mkRequest method (url.mkURL url ""))
  end.

(** Modelled from the spec: [client.Do(req, v)] of the absent package
    [api].  By section 2 it executes the request and, given a [v],
    decodes the JSON response into it; given [nil] it leaves the body
    to the caller, open.  The decoded value is the second component. *)
Definition Do {A} (roundTrip : string → Result http.Response)
    (req : http.Request) (v : option (list byte → Result A))
  : M (Result (http.Response * option A)) :=
  λ w,
    let target := url.String_ (http.URL req) in
    let w1 := mkWorld (files w) (dirs w) (requests w ++ [target])
                (stderr w) (stdout w) (opened w) (deferred w) in
    match roundTrip target with
    | Err e => (w1, Next (Err e))
    | Ok res =>
        match v with
        | Some decode =>
            match decode (http.Body res) with
            | Err e => (w1, Next (Err e))
            | Ok a => (w1, Next (Ok (res, Some a)))
            end
        | None =>
            (mkWorld (files w1) (dirs w1) (requests w1) (stderr w1)
               (stdout w1) (Body target :: opened w1) (deferred w1),
             Next (Ok (res, None)))
        end
    end.

End api.

Module workspace.
Import rt.

(** [workspace.Solution], the local solution record of section 3. *)
Record Solution : Type := mkSolution {
  Track : string;
  Exercise : string;
  ID : string;
  URL : string;
  Handle : string;
  IsRequester : bool;
  Dir : string
}.

(** Modelled from the spec: [solution.PathToParent()] of the absent
    package [workspace].  By section 6 the layout on disk is "workspace
    root / track / exercise / solution-id", of which [SolutionPath]
    gives the last two, "keyed on exercise id and solution id"; the
    parent is the track's directory. *)
Definition PathToParent (s : Solution) : string := Track s.

(** [workspace.New(dir)] *)
Record Workspace : Type := New { Root : string }.

(** Modelled from the spec: [ws.SolutionPath(exercise, id)] of the
    absent package [workspace]; see [PathToParent]. *)
Definition SolutionPath (goos : filepath.OS) (ws : Workspace)
    (exercise id : string) : Result string :=
  Ok (filepath.Join goos [Root ws; exercise; id]).

(** Modelled from the spec: [solution.Write(dir)] of the absent package
    [workspace].  By section 4.3 it writes "a metadata marker into that
    directory", and by section 3 the record has "a derived local
    directory path", which nothing in [download.go] sets: the method
    has a pointer receiver and records [dir].  The marker's name and
    bytes are arguments; [refuses] says when the system refuses the
    file. *)
Definition Write (goos : filepath.OS) (marker : string)
    (marshal : Solution → list byte) (refuses : string → option Error)
    (s : Solution) (dir : string) : M (Result unit * Solution) :=
  λ w,
    let name := filepath.Join goos [dir; marker] in
    match refuses name with
    | Some e => (w, Next (Err e, s))
    | None =>
        (mkWorld (<[name := marshal s]> (files w)) (dirs w) (requests w)
           (stderr w) (stdout w) (opened w) (deferred w),
         Next (Ok tt,
               mkSolution (Track s) (Exercise s) (ID s) (URL s) (Handle s)
                 (IsRequester s) dir))
    end.

End workspace.

(** ** cmd/download.go *)

(** [type downloadPayload struct]: the envelope of the first response.
    Each anonymous struct of the Go declaration is a record in a module
    of the field's name. *)
Module payload.

Module User.
Record t : Type := mk { Handle : string; IsRequester : bool }.
End User.

Module Track.
Record t : Type := mk { ID : string; Language : string }.
End Track.

Module Exercise.
Record t : Type := mk {
  ID : string;
  InstructionsURL : string;
  AutoApprove : bool;
  Track : Track.t
}.
End Exercise.

Module Iteration.
Record t : Type := mk { SubmittedAt : option string }.
End Iteration.

Module Solution.
Record t : Type := mk {
  ID : string;
  URL : string;
  User : User.t;
  Exercise : Exercise.t;
  FileDownloadBaseURL : string;
  Files : list string;
  Iteration : Iteration.t
}.
End Solution.

Module Error.
Record t : Type := mk {
  Type_ : string;
  Message : string;
  PossibleTrackIDs : list string
}.
End Error.

Record downloadPayload : Type := mk {
  Solution : Solution.t;
  Error : Error.t
}.

(** [downloadPayload{}], the zero value. *)
Definition zero : downloadPayload :=
  mk (Solution.mk "" "" (User.mk "" false)
        (Exercise.mk "" "" false (Track.mk "" "")) "" []
        (Iteration.mk None))
     (Error.mk "" "" []).

End payload.

(** What the command gets from its surroundings: the platform, the
    package-level names of [cmd] it reads, the user's configuration, the
    network and the refusals of the operating system. *)
Record Env : Type := mkEnv {
  GOOS : filepath.OS;                   (* the system the command runs on *)
  BinName : string;                     (* [cmd.BinName] *)
  solutionExercise : string;            (* [solution.Exercise] where the
                                           closure reads it before it
                                           declares [solution] *)
  NewAPIConfig : rt.Result string;      (* [config.NewAPIConfig()]: the
                                           configuration, by its base
                                           URL, or the error *)
  NewClient : rt.Result api.Client;     (* [api.NewClient()] *)
  rejectsURL : string → option rt.Error;    (* see [api.NewRequest] *)
  ParseQuery : string → url.Values;         (* [url.ParseQuery] *)
  RoundTrip : string → rt.Result http.Response;
                                        (* the network: the response to
                                           a GET of a URL, or the error
                                           of the transport *)
  Decode : list byte → rt.Result payload.downloadPayload;
                                        (* [encoding/json], for the type
                                           of the envelope *)
  refusesCreate : string → option rt.Error; (* see [rt.Create] *)
  solutionFilename : string;            (* see [workspace.Write] *)
  marshal : workspace.Solution → list byte
}.

Module cmd.
Import rt.
Local Open Scope go_scope.

(** Modelled from the spec: [BailOnError(err)] of package [cmd], which
    is not in [download.go].  Section 7: an error is "immediately
    fatal: reported to standard error and the process terminated with
    non-zero status"; with no error the call does nothing.  The result
    stands for the value that Go returns next to the error. *)
Definition BailOnError {A} (r : Result A) : M A :=
  λ w, match r with
       | Ok a => (w, Next a)
       | Err e => (w, Fatal e)
       end.

(** Modelled from the spec: [BailOrError(err)], a name that
    [download.go] calls once and that nothing in it declares.  Section
    4.2 has that call "surface the error's message field as a fatal
    error": it is taken to be the handler of fatal errors. *)
Definition BailOrError {A} (r : Result A) : M A := BailOnError r.

(** [errors.New(text)] is never [nil]. *)
Definition errorsNew (text : string) : Result unit := Err text.

(** [cmd.Flags().GetString(name)] of cobra: the value of a flag that
    was defined, an error for any other name. *)
Definition GetString (flags : gmap string string) (name : string)
  : Result string :=
  match flags !! name with
  | Some v => Ok v
  | None => Err ("flag accessed but not defined: " +:+ name)
  end.

(** [[
    func initDownloadCmd() {
        downloadCmd.Flags().StringP("uuid", "u", "", "the solution UUID")
        downloadCmd.Flags().StringP("track", "t", "", "the track ID")
    }
    ]]
    The flags and their default values. *)
Definition initDownloadCmd : gmap string string :=
  <["track" := ""]> (<["uuid" := ""]> ∅).

(** [[
    type downloadRequest struct {
        client  *api.Client
        request *http.Request
        payload downloadPayload
    }
    ]]
    [payload] is a field by value: a copy of the struct has its own. *)
Record downloadRequest : Type := mkDownloadRequest {
  client : api.Client;
  request : http.Request;
  payload : payload.downloadPayload
}.

Section command.

Variable env : Env.

Let goos : filepath.OS := GOOS env.

(** [func newDownloadRequest(uuid, track, exercise string) (downloadRequest, error)] *)
Definition newDownloadRequest (uuid track exercise : string)
  : Result downloadRequest :=
  match NewAPIConfig env with
  | Err e => Err e
  | Ok cfg =>
      let slug := if decide (uuid = "") then "latest" else uuid in
      let url := config.URL cfg "download" slug in
      match NewClient env with
      | Err e => Err e
      | Ok client =>
          match api.NewRequest (rejectsURL env) "GET" url with
          | Err e => Err e
          | Ok req =>
              let req :=
                if decide (uuid = "") then
                  let q := url.Query (ParseQuery env) (http.URL req) in
                  let q := url.Add q "exercise_id" exercise in
                  let q := if decide (track ≠ "")
                           then url.Add q "track_id" track else q in
                  http.mkRequest (http.Method req)
                    (url.mkURL (url.Location (http.URL req))
                       (url.Encode q))
                else req in
              Ok (mkDownloadRequest client req payload.zero)
          end
      end
  end.

(** [func (dr downloadRequest) newSolution() *workspace.Solution] *)
Definition newSolution (dr : downloadRequest) : workspace.Solution :=
  let s := payload.Solution (payload dr) in
  workspace.mkSolution
    (payload.Track.ID (payload.Exercise.Track (payload.Solution.Exercise s)))
    (payload.Exercise.ID (payload.Solution.Exercise s))
    (payload.Solution.ID s)
    (payload.Solution.URL s)
    (payload.User.Handle (payload.Solution.User s))
    (payload.User.IsRequester (payload.Solution.User s))
    "".

(** [[
    func (dr downloadRequest) do() ( *http.Response, error) {
        return dr.client.Do(dr.request, &dr.payload)
    }
    ]]
    The receiver is a value: [dr] is the method's own copy of the
    caller's struct, and [&dr.payload] points into that copy.  The
    result is the pair the method returns together with the copy as
    the method leaves it, which no caller can reach. *)
Definition do (dr : downloadRequest)
  : M (Result http.Response * downloadRequest) :=
  r <- api.Do (RoundTrip env) (request dr) (Some (Decode env)) ;;
  ret match r with
      | Err e => (Err e, dr)
      | Ok (res, Some p) =>
          (Ok res, mkDownloadRequest (client dr) (request dr) p)
      | Ok (res, None) => (Ok res, dr)
      end.

(** Lines 53 to 66 of [Run]: the response is not a 200. *)
Definition respond (res : http.Response) (dr : downloadRequest)
  : M unit :=
  if decide (http.StatusCode res ≠ http.StatusOK) then
    if decide (payload.Error.Type_ (payload.Error (payload dr))
               = "track_ambiguous") then
      Eprint ("You have multiple " +:+ solutionExercise env
              +:+ " exercises available to you." +:+ LF) ;;
      Eprint ("Specify the the --track flag:" +:+ LF) ;;
      forRange (payload.Error.PossibleTrackIDs (payload.Error (payload dr)))
        (λ id, Eprint (BinName env +:+ " download "
                       +:+ solutionExercise env +:+ " --track=" +:+ id)) ;;
      Exit_ 1
    else
      BailOrError
        (errorsNew (payload.Error.Message (payload.Error (payload dr))))
  else ret tt.

(** Lines 68 to 80 of [Run]: the solution and its directory. *)
Definition materialize (dr : downloadRequest) : M workspace.Solution :=
  let solution := newSolution dr in
  let parent :=
    filepath.Join goos
      [api.Workspace (client dr); workspace.PathToParent solution] in
  MkdirAll parent ;;
  let ws := workspace.New parent in
  dir <- BailOnError
           (workspace.SolutionPath goos ws (workspace.Exercise solution)
              (workspace.ID solution)) ;;
  MkdirAll dir ;;
  written <- workspace.Write goos (solutionFilename env) (marshal env)
               (refusesCreate env) solution dir ;;
  BailOnError (fst written) ;;
  ret (snd written).

(** [io.Copy(f, res.Body)]: the bytes the body delivers go to the
    file; the error is the one that ended the reading. *)
Definition Copy (f : Resource) (res : http.Response) : M (Result unit) :=
  match f with
  | File name =>
      write name (http.Body res) ;;
      ret (match http.BodyErr res with
           | Some e => Err e
           | None => Ok tt
           end)
  | Body _ => ret (Err "invalid argument")
  end.

(** Lines 83 to 111 of [Run]: the body of the loop over the files.
    [continue] ends the body. *)
Definition fetchFile (dr : downloadRequest)
    (solution : workspace.Solution) (file : string) : M unit :=
  let url :=
    payload.Solution.FileDownloadBaseURL (payload.Solution (payload dr))
    +:+ file in
  req <- BailOnError (api.NewRequest (rejectsURL env) "GET" url) ;;
  r <- api.Do (A := unit) (RoundTrip env) req None ;;
  res <- BailOnError (match r with
                      | Ok (res, _) => Ok res
                      | Err e => Err e
                      end) ;;
  deferClose (Body (url.String_ (http.URL req))) ;;
  if decide (http.StatusCode res ≠ http.StatusOK) then
    BailOnError (A := unit) (Err ("Failed to download: " +:+ file)) ;;
    ret tt
  else if decide (http.Get (http.Header res) "Content-Length" = "0") then
    ret tt
  else
    let relativePath := filepath.FromSlash goos file in
    let dir :=
      filepath.Join goos
        [workspace.Dir solution; filepath.Dir goos relativePath] in
    MkdirAll dir ;;
    created <- Create (refusesCreate env)
                 (filepath.Join goos [workspace.Dir solution; relativePath]) ;;
    f <- BailOnError created ;;
    deferClose f ;;
    copied <- Copy f res ;;
    BailOnError copied.

(** Lines 82 to 112 of [Run]: the loop. *)
Definition fetchFiles (dr : downloadRequest)
    (solution : workspace.Solution) : M unit :=
  forRange (payload.Solution.Files (payload.Solution (payload dr)))
    (fetchFile dr solution).

(** The directory [materialize] finds for the solution of the
    request: workspace root, track, exercise, solution id. *)
Definition solutionDir (dr : downloadRequest) : string :=
  let solution := newSolution dr in
  filepath.Join goos
    [filepath.Join goos
       [api.Workspace (client dr); workspace.Track solution];
     workspace.Exercise solution; workspace.ID solution].

(** The marker of the solution in that directory. *)
Definition solutionMarker (dr : downloadRequest) : string :=
  filepath.Join goos [solutionDir dr; solutionFilename env].

(** The solution of the request, in its directory. *)
Definition placed (dr : downloadRequest) : workspace.Solution :=
  let solution := newSolution dr in
  workspace.mkSolution (workspace.Track solution)
    (workspace.Exercise solution) (workspace.ID solution)
    (workspace.URL solution) (workspace.Handle solution)
    (workspace.IsRequester solution) (solutionDir dr).

(** For an entry of the file list: the URL the loop requests, and the
    path of the file it creates. *)
Definition fileURL (dr : downloadRequest) (file : string) : string :=
  payload.Solution.FileDownloadBaseURL (payload.Solution (payload dr))
  +:+ file.

Definition destination (solution : workspace.Solution) (file : string)
  : string :=
  filepath.Join goos
    [workspace.Dir solution; filepath.FromSlash goos file].

(** The body that an entry brings when nothing stands in the way of
    its file: the request can be built, the answer is a 200 whose
    [Content-Length] is not ["0"], the body is read to its end, and
    the system lets the file be created. *)
Definition served (dr : downloadRequest) (solution : workspace.Solution)
    (file : string) : option (list byte) :=
  match rejectsURL env (fileURL dr file),
        RoundTrip env (fileURL dr file),
        refusesCreate env (destination solution file) with
  | None, Ok res, None =>
      if decide (http.StatusCode res = http.StatusOK
                 ∧ http.Get (http.Header res) "Content-Length" ≠ "0"
                 ∧ http.BodyErr res = None)
      then Some (http.Body res) else None
  | _, _, _ => None
  end.

(** The files after the loop over entries that are all served: each
    body is put at its destination, in the order of the list. *)
Definition written (dr : downloadRequest) (solution : workspace.Solution)
    (files : list string) (before : gmap string (list byte))
  : gmap string (list byte) :=
  foldl (λ m file,
           <[destination solution file
             := default [] (served dr solution file)]> m)
    before files.

(** The handles the loop opens for these entries, the newest first. *)
Definition handles (dr : downloadRequest) (solution : workspace.Solution)
    (files : list string) : list Resource :=
  file ← reverse files;
  [File (destination solution file); Body (fileURL dr file)].

(** Lines 53 to 113 of [Run]: all that follows [dr.do()]. *)
Definition finish (res : http.Response) (dr : downloadRequest) : M unit :=
  respond res dr ;;
  solution <- materialize dr ;;
  fetchFiles dr solution ;;
  Oprint (LF +:+ "Downloaded to" +:+ LF +:+ workspace.Dir solution +:+ LF).

(** [downloadCmd.Run], for the flags as parsed and the positional
    arguments.  The deferred calls run where the function returns. *)
Definition Run (flags : gmap string string) (args : list string)
  : M unit :=
  uuid <- BailOnError (GetString flags "uuid") ;;
  if decide (uuid = "" ∧ length args = 0%nat) then
    Eprint "need an exercise name or a solution --uuid"
  else
    let exercise := match args with a :: _ => a | [] => "" end in
    track <- BailOnError (GetString flags "track") ;;
    dr <- BailOnError (newDownloadRequest uuid track exercise) ;;
    done <- do dr ;;
    res <- BailOnError (fst done) ;;
    finish res dr ;;
    runDeferred.

End command.

End cmd.

(** The surroundings in which the decoder gives the zero envelope
    wherever it gives an envelope. *)
Definition forgetful (env : Env) : Env :=
  mkEnv (GOOS env) (BinName env) (solutionExercise env) (NewAPIConfig env)
    (NewClient env) (rejectsURL env) (ParseQuery env) (RoundTrip env)
    (λ body, match Decode env body with
             | rt.Ok _ => rt.Ok payload.zero
             | rt.Err e => rt.Err e
             end)
    (refusesCreate env) (solutionFilename env) (marshal env).

(** A piece of text occurs in a text. *)
Definition occursIn (piece text : string) : Prop :=
  ∃ before after, text = before +:+ piece +:+ after.

(** The texts of a list one after the other. *)
Definition concatenated (texts : list string) : string :=
  foldr String.append "" texts.

Global Instance real_dec e : Decision (filepath.real e).
Proof. unfold filepath.real. apply _. Defined.

(** ** Sample inputs

    A configuration, a server and envelopes on which the definitions are
    run. *)

Module sample.
Import rt.

Definition bytes (s : string) : list byte := String.list_byte_of_string s.

(** A response with a [Content-Length] header. *)
Definition reply (status : Z) (contentLength body : string)
  : http.Response :=
  http.mkResponse status {[ "Content-Length" := [contentLength] ]}
    (bytes body) None.

Definition pages : list (string * http.Response) :=
  [ ("https://api.test/v1/download/latest?exercise_id=bob",
     reply 200 "8" "envelope");
    ("https://api.test/v1/download/latest?exercise_id=leap",
     reply 400 "9" "ambiguous");
    ("https://api.test/v1/download/latest?exercise_id=nope",
     reply 404 "7" "missing");
    ("https://files.test/abc/bob.rb", reply 200 "6" "puts 1");
    ("https://files.test/abc/./bob.rb", reply 200 "6" "puts 2");
    ("https://files.test/abc/lib/util.rb", reply 200 "1" "x");
    ("https://files.test/abc/lib\util.rb", reply 200 "1" "y");
    ("https://files.test/abc/empty.rb", reply 200 "0" "");
    ("https://files.test/abc/gone.rb", reply 404 "9" "not found");
    ("https://files.test/abc/void.rb", reply 404 "0" "");
    ("https://files.test/abc/../../../../etc/passwd", reply 200 "4" "root") ].

Definition server (target : string) : Result http.Response :=
  match list_find (λ page, page.1 = target) pages with
  | Some (_, (_, res)) => Ok res
  | None => Err "connection refused"
  end.

(** The envelope of solution [abc] of exercise [bob] on track [ruby],
    with the given files. *)
Definition envelope (files : list string) : payload.downloadPayload :=
  payload.mk
    (payload.Solution.mk "abc" "https://exercism.test/solutions/abc"
       (payload.User.mk "alice" true)
       (payload.Exercise.mk "bob" "" false (payload.Track.mk "ruby" "Ruby"))
       "https://files.test/abc/" files (payload.Iteration.mk None))
    (payload.Error.mk "" "" []).

Definition ambiguous : payload.downloadPayload :=
  payload.mk (payload.Solution payload.zero)
    (payload.Error.mk "track_ambiguous" "" ["ruby"; "python"]).

Definition missing : payload.downloadPayload :=
  payload.mk (payload.Solution payload.zero)
    (payload.Error.mk "" "not found" []).

Definition decode (body : list byte) : Result payload.downloadPayload :=
  if decide (body = bytes "envelope") then
    Ok (envelope ["bob.rb"; "lib/util.rb"])
  else if decide (body = bytes "ambiguous") then Ok ambiguous
  else if decide (body = bytes "missing") then Ok missing
  else Err "invalid character".

Definition on (goos : filepath.OS) : Env :=
  mkEnv goos "exercism" "" (Ok "https://api.test/v1")
    (Ok (api.mkClient "/ws")) (λ _, None) (λ _, []) server decode
    (λ _, None) ".solution.json" (λ _, bytes "{}").

Definition unix : Env := on filepath.unix.

(** A download request that holds the envelope with the given files. *)
Definition holding (files : list string) : cmd.downloadRequest :=
  cmd.mkDownloadRequest (api.mkClient "/ws")
    (http.mkRequest "GET"
       (url.mkURL "https://api.test/v1/download/latest" "exercise_id=bob"))
    (envelope files).

(** The solution of [envelope] once [materialize] is through. *)
Definition solution : workspace.Solution :=
  workspace.mkSolution "ruby" "bob" "abc"
    "https://exercism.test/solutions/abc" "alice" true "/ws/ruby/bob/abc".

(** A world with nothing in it. *)
Definition blank : World := mkWorld ∅ ∅ [] "" "" [] [].

End sample.

(** ** Sample inputs with failures

    The sample server with an entry whose body breaks off, a URL that no
    request can be built for, and files and a marker that the system
    refuses to create. *)

Module trouble.
Import rt.

Definition server (target : string) : Result http.Response :=
  if decide (target = "https://files.test/abc/cut.rb") then
    Ok (http.mkResponse 200 {[ "Content-Length" := ["10"] ]}
          (sample.bytes "puts") (Some "unexpected EOF"))
  else if decide (target = "https://files.test/abc/locked.rb") then
    Ok (sample.reply 200 "1" "z")
  else sample.server target.

Definition rejects (target : string) : option Error :=
  if decide (target = "https://files.test/abc/%zz") then
    Some "invalid URL escape"
  else None.

Definition refuses (locked : list string) (name : string) : option Error :=
  if decide (name ∈ locked) then Some "permission denied" else None.

(** The surroundings in which the system refuses the files of [locked]. *)
Definition env (locked : list string) : Env :=
  mkEnv filepath.unix "exercism" "" (Ok "https://api.test/v1")
    (Ok (api.mkClient "/ws")) rejects (λ _, []) server sample.decode
    (refuses locked) ".solution.json" (λ _, sample.bytes "{}").

End trouble.

(** How often a character occurs in a text. *)
Definition occurrences (c : ascii) (text : string) : nat :=
  length (filter (λ x, x = c) (list_ascii_of_string text)).

(** * Properties *)

Example Clean_samples :
  filepath.Clean filepath.unix "/a/b/../c/./d//" = "/a/c/d"
  ∧ filepath.Clean filepath.unix "../../a/.." = "../.."
  ∧ filepath.Clean filepath.unix "/../a" = "/a"
  ∧ filepath.Clean filepath.unix "" = "."
  ∧ filepath.Clean filepath.unix "a/.." = "."
  ∧ filepath.Clean filepath.unix "/" = "/"
  ∧ filepath.Clean filepath.windows "a/b\..\c" = "a\c".
Proof. repeat split; reflexivity. Qed.

Example Join_Dir_samples :
  filepath.Join filepath.unix ["/ws/ruby"; "bob"; "../../x"] = "/ws/x"
  ∧ filepath.Join filepath.unix [""; "a"; ""; "b"] = "a/b"
  ∧ filepath.Join filepath.unix [""; ""] = ""
  ∧ filepath.Dir filepath.unix "a/b/c.txt" = "a/b"
  ∧ filepath.Dir filepath.unix "c.txt" = "."
  ∧ filepath.Dir filepath.unix "/c.txt" = "/".
Proof. repeat split; reflexivity. Qed.

Example Encode_samples :
  url.QueryEscape "hello world/~a_b-c.d&e" = "hello+world%2F~a_b-c.d%26e"
  ∧ url.Encode (url.Add (url.Add (url.Add [] "track_id" "ruby")
                           "exercise_id" "bob") "track_id" "x y")
    = "exercise_id=bob&track_id=ruby&track_id=x+y".
Proof. split; reflexivity. Qed.

Example materialize_sample :
  (cmd.materialize sample.unix (sample.holding []) sample.blank).2
  = rt.Next sample.solution.
Proof. reflexivity. Qed.

(** A decidable fact about given inputs, by evaluation. *)
Ltac decided := apply (bool_decide_unpack _); vm_compute; exact I.

(** ** Strings *)

Lemma append_nil (s : string) : "" +:+ s = s.
Proof. reflexivity. Qed.

Lemma append_cons (c : ascii) (a b : string) :
  String c a +:+ b = String c (a +:+ b).
Proof. reflexivity. Qed.

Lemma append_nil_r (s : string) : s +:+ "" = s.
Proof. induction s as [|c s IH]; [done|]. by rewrite append_cons, IH. Qed.

Lemma append_assoc (a b c : string) : (a +:+ b) +:+ c = a +:+ (b +:+ c).
Proof.
  induction a as [|x a IH]; [done|]. by rewrite !append_cons, IH.
Qed.

(** ** Separators *)

Section separators.

Variable goos : filepath.OS.

Lemma slashSeparated_cons c path :
  filepath.slashSeparated goos (String c path)
  = (negb (filepath.IsPathSeparator goos c) || Ascii.eqb c "/"%char)
    && filepath.slashSeparated goos path.
Proof. reflexivity. Qed.

(** Whatever the system, turning the slashes of a path into separators
    and the separators into slashes gives the path with all its
    separators as slashes. *)
Lemma ToSlash_FromSlash path :
  filepath.ToSlash goos (filepath.FromSlash goos path)
  = filepath.ToSlash goos path.
Proof.
  unfold filepath.ToSlash, filepath.FromSlash.
  destruct (Ascii.eqb (filepath.Separator goos) "/") eqn:Hsep; [done|].
  induction path as [|c path IH]; [done|].
  cbn [filepath.ReplaceAll]. rewrite IH. f_equal.
  destruct (Ascii.eqb_spec c "/") as [->|Hc].
  - rewrite Ascii.eqb_refl. by rewrite Ascii.eqb_sym, Hsep.
  - done.
Qed.

Lemma ToSlash_slashSeparated path :
  filepath.slashSeparated goos path = true →
  filepath.ToSlash goos path = path.
Proof.
  unfold filepath.ToSlash.
  destruct (Ascii.eqb (filepath.Separator goos) "/") eqn:Hsep; [done|].
  induction path as [|c path IH]; [done|].
  rewrite slashSeparated_cons, andb_true_iff. intros [Hc Hpath].
  cbn [filepath.ReplaceAll]. rewrite (IH Hpath). f_equal.
  destruct (Ascii.eqb_spec c (filepath.Separator goos)) as [->|Hne]; [|done].
  unfold filepath.IsPathSeparator in Hc.
  by rewrite Ascii.eqb_refl, Hsep in Hc.
Qed.

End separators.

(** C7, as corrected.  For every entry of the file list that is
    slash-separated on the system the command runs on (every entry is on
    Unix, an entry without a backslash is on Windows), turning the
    separators of the on-disk relative path, [filepath.FromSlash(file)],
    back into slashes gives the entry. *)
Theorem C7_separators_round_trip (goos : filepath.OS) (file : string) :
  filepath.slashSeparated goos file = true →
  filepath.ToSlash goos (filepath.FromSlash goos file) = file.
Proof.
  intros Hfile. rewrite ToSlash_FromSlash.
  by apply ToSlash_slashSeparated.
Qed.

Lemma C7_separators_round_trip_witness :
  filepath.slashSeparated filepath.windows "lib/util.rb" = true
  ∧ filepath.ToSlash filepath.windows
      (filepath.FromSlash filepath.windows "lib/util.rb") = "lib/util.rb".
Proof.
  split; [reflexivity|].
  apply (C7_separators_round_trip filepath.windows "lib/util.rb").
  reflexivity.
Defined.

(** C7 as stated fails on Windows for an entry that has a backslash: the
    entry is written, and its on-disk relative path turned back to
    slashes is another string. *)
Lemma C7_counterexample :
  let file := "lib\util.rb" in
  let env := sample.on filepath.windows in
  let after :=
    (cmd.fetchFile env (sample.holding [file]) sample.solution file
       sample.blank).1 in
  rt.files after !! "\ws\ruby\bob\abc\lib\util.rb"
    = Some (sample.bytes "y")
  ∧ filepath.ToSlash filepath.windows (filepath.FromSlash filepath.windows file)
    = "lib/util.rb"
  ∧ filepath.ToSlash filepath.windows (filepath.FromSlash filepath.windows file)
    ≠ file.
Proof. split; [|split]; [vm_compute; reflexivity|reflexivity|discriminate]. Qed.

(** ** Path name elements *)

Section elements.

Variable goos : filepath.OS.

Local Arguments filepath.IsPathSeparator : simpl never.
Local Arguments filepath.Separator : simpl never.

Abbreviation isSep := (filepath.IsPathSeparator goos).
Abbreviation sep := (filepath.Separator goos).

Abbreviation plain := (filepath.plain goos).

Lemma Separator_isSep : isSep sep = true.
Proof. by destruct goos. Qed.

Lemma elements_not_nil path : filepath.elements goos path ≠ [].
Proof.
  destruct path as [|c path]; [done|]. cbn.
  destruct (isSep c); [done|].
  by destruct (filepath.elements goos path).
Qed.

Lemma elements_app_sep a c b :
  isSep c = true →
  filepath.elements goos (a +:+ String c b)
  = filepath.elements goos a ++ filepath.elements goos b.
Proof.
  intros Hc. induction a as [|x a IH].
  - rewrite append_nil. cbn. by rewrite Hc.
  - rewrite append_cons. cbn. rewrite IH. destruct (isSep x); [done|].
    pose proof (elements_not_nil a).
    by destruct (filepath.elements goos a).
Qed.

Lemma elements_plain path : Forall plain (filepath.elements goos path).
Proof.
  induction path as [|c path IH]; cbn.
  - repeat constructor.
  - destruct (isSep c) eqn:Hc.
    + constructor; [constructor|done].
    + destruct (filepath.elements goos path) as [|e es].
      * repeat constructor. done.
      * inversion_clear IH. constructor; [|done].
        by constructor.
Qed.

Lemma elements_of_plain e : plain e → filepath.elements goos e = [e].
Proof.
  induction e as [|c e IH]; [done|].
  intros He. inversion_clear He as [|?? Hc He']. cbn.
  by rewrite Hc, (IH He').
Qed.

Lemma joinElements_cons e e' es :
  filepath.joinElements goos (e :: e' :: es)
  = e +:+ String sep (filepath.joinElements goos (e' :: es)).
Proof. reflexivity. Qed.

Lemma elements_joinElements es :
  es ≠ [] → Forall plain es →
  filepath.elements goos (filepath.joinElements goos es) = es.
Proof.
  induction es as [|e es IH]; [done|]. intros _ Hes.
  inversion_clear Hes as [|?? He Hes'].
  destruct es as [|e' es].
  - by apply elements_of_plain.
  - rewrite joinElements_cons.
    rewrite elements_app_sep by apply Separator_isSep.
    rewrite elements_of_plain, IH by done. done.
Qed.

(** [FromSlash] moves no boundary between elements. *)
Lemma elements_FromSlash path :
  filepath.elements goos (filepath.FromSlash goos path)
  = filepath.elements goos path.
Proof.
  unfold filepath.FromSlash.
  destruct (Ascii.eqb sep "/") eqn:Hsep; [done|].
  induction path as [|c path IH]; [done|].
  cbn. rewrite IH.
  destruct (Ascii.eqb_spec c "/") as [->|Hc]; [|done].
  rewrite Separator_isSep. unfold filepath.IsPathSeparator.
  by rewrite Ascii.eqb_refl, orb_true_r.
Qed.

End elements.

(** ** Clean *)

Section cleaning.

Variable goos : filepath.OS.

Local Arguments filepath.IsPathSeparator : simpl never.
Local Arguments filepath.Separator : simpl never.

Lemma dotdot_real : filepath.real "..".
Proof. intros [?|?]; discriminate. Qed.

Lemma dotdot_plain : filepath.plain goos "..".
Proof. repeat constructor; by destruct goos. Qed.

(** Elements other than [".."] are pushed or skipped. *)
Lemma foldl_step_no_dotdot r l out :
  ".." ∉ l →
  foldl (filepath.cleanStep r) out l = reverse (filter filepath.real l) ++ out.
Proof.
  revert out. induction l as [|e l IH]; intros out Hl; [done|].
  apply not_elem_of_cons in Hl as [He Hl]. cbn [foldl].
  rewrite IH by done. unfold filepath.cleanStep.
  destruct (decide (e = "" ∨ e = ".")) as [Hskip|Hreal].
  - rewrite filter_cons_False; [done|]. intros Hreal. by apply Hreal.
  - rewrite filter_cons_True by done.
    rewrite decide_False by done.
    by rewrite reverse_cons, <- app_assoc.
Qed.

(** At the start of a relative path every [".."] is kept. *)
Lemma foldl_step_dotdots r n k :
  r = false →
  foldl (filepath.cleanStep r) (replicate k "..") (replicate n "..") = replicate (n + k) "..".
Proof.
  intros ->. revert k. induction n as [|n IH]; intros k; [done|].
  cbn [replicate foldl].
  replace (filepath.cleanStep false (replicate k "..") "..")
    with (replicate (S k) "..").
  - rewrite IH. f_equal. lia.
  - unfold filepath.cleanStep.
    rewrite decide_False by apply dotdot_real.
    rewrite decide_True by done.
    destruct k as [|k]; [done|]. cbn [replicate].
    by rewrite decide_True.
Qed.

Lemma cleaned_nil r : filepath.cleaned goos r [].
Proof.
  split; [constructor|]. exists 0%nat, [].
  split_and!; [done|apply not_elem_of_nil|done].
Qed.

Lemma cleanStep_cleaned r out e :
  filepath.plain goos e →
  filepath.cleaned goos r out →
  filepath.cleaned goos r (filepath.cleanStep r out e).
Proof.
  intros He (Hall & n & body & -> & Hbody & Hn).
  unfold filepath.cleanStep.
  destruct (decide (e = "" ∨ e = ".")) as [|Hreal].
  { split; [done|]. by exists n, body. }
  destruct (decide (e = "..")) as [->|Hne].
  - destruct body as [|b body].
    + rewrite app_nil_l in *.
      destruct n as [|n]; cbn [replicate].
      * destruct r; [apply cleaned_nil|].
        split; [constructor; [split; [done|apply dotdot_real]|done]|].
        exists 1%nat, []. split_and!; [done|apply not_elem_of_nil|done].
      * rewrite decide_True by done.
        destruct r eqn:Hr; [by specialize (Hn eq_refl)|].
        split; [constructor; [split; [done|apply dotdot_real]|done]|].
        exists (S (S n)), []. split_and!; [done|apply not_elem_of_nil|done].
    + apply not_elem_of_cons in Hbody as [Hb Hbody].
      cbn [app]. rewrite decide_False by done.
      inversion_clear Hall. split; [done|]. by exists n, body.
  - split; [by constructor|].
    exists n, (e :: body). split_and!; [done| |done].
    by apply not_elem_of_cons.
Qed.

Lemma foldl_step_cleaned r l out :
  Forall (filepath.plain goos) l →
  filepath.cleaned goos r out →
  filepath.cleaned goos r (foldl (filepath.cleanStep r) out l).
Proof.
  revert out. induction l as [|e l IH]; intros out Hl Hout; [done|].
  inversion_clear Hl. cbn [foldl].
  by apply IH, cleanStep_cleaned.
Qed.

(** Cleaning what is cleaned changes nothing. *)
Lemma foldl_step_real r l out :
  ".." ∉ l → Forall filepath.real l →
  foldl (filepath.cleanStep r) out l = reverse l ++ out.
Proof.
  intros Hl Hreal. rewrite foldl_step_no_dotdot by done. do 2 f_equal.
  induction Hreal as [|e l He _ IH]; [done|].
  apply not_elem_of_cons in Hl as [_ Hl].
  by rewrite filter_cons_True, IH.
Qed.

Lemma foldl_step_of_cleaned r out :
  filepath.cleaned goos r out →
  foldl (filepath.cleanStep r) [] (reverse out) = out.
Proof.
  intros (Hall & n & body & -> & Hbody & Hn).
  rewrite reverse_app, reverse_replicate, foldl_app.
  assert (foldl (filepath.cleanStep r) [] (replicate n "..") = replicate n "..") as ->.
  { destruct r eqn:Hr.
    - by rewrite (Hn eq_refl).
    - pose proof (foldl_step_dotdots false n 0 eq_refl) as H.
      by rewrite Nat.add_0_r in H. }
  rewrite foldl_step_no_dotdot by (by rewrite elem_of_reverse).
  rewrite filter_reverse, reverse_involutive. f_equal.
  apply Forall_app in Hall as [Hall _]. clear Hbody.
  induction Hall as [|b body [_ Hb] _ IH]; [done|].
  by rewrite filter_cons_True, IH.
Qed.

Lemma foldl_elements_cleaned path :
  filepath.cleaned goos (filepath.rooted goos path)
    (foldl (filepath.cleanStep (filepath.rooted goos path)) []
       (filepath.elements goos path)).
Proof.
  apply foldl_step_cleaned; [apply elements_plain|apply cleaned_nil].
Qed.

Lemma joinElements_head e es :
  filepath.plain goos e → filepath.real e →
  ∃ c rest, filepath.joinElements goos (e :: es) = String c rest
            ∧ filepath.IsPathSeparator goos c = false.
Proof.
  intros He Hreal. destruct e as [|c e].
  { destruct Hreal. by left. }
  inversion_clear He as [|?? Hc _].
  destruct es as [|e' es]; [by exists c, e|].
  rewrite joinElements_cons, append_cons. eauto.
Qed.

(** The elements of a cleaned path are those [Clean] wrote, and it is
    rooted when the path it comes from is: [Clean] is idempotent. *)
Lemma Clean_elements path :
  filepath.rooted goos (filepath.Clean goos path) = filepath.rooted goos path
  ∧ filepath.cleanElements goos (filepath.Clean goos path)
    = filepath.cleanElements goos path.
Proof.
  pose proof (foldl_elements_cleaned path) as Hout.
  unfold filepath.Clean, filepath.cleanElements in *.
  set (r := filepath.rooted goos path) in *.
  set (out := foldl (filepath.cleanStep r) [] (filepath.elements goos path))
    in *.
  assert (Forall (filepath.plain goos) (reverse out)) as Hplain.
  { apply Forall_reverse. destruct Hout as [Hall _].
    eapply Forall_impl; [exact Hall|]. by intros ? [? _]. }
  pose proof (foldl_step_of_cleaned r out Hout) as Hagain.
  destruct r eqn:Hr.
  - rewrite append_cons, append_nil, decide_False by done.
    cbn [filepath.rooted filepath.elements].
    rewrite Separator_isSep. split; [done|]. f_equal.
    cbn [foldl]. unfold filepath.cleanStep at 2.
    rewrite decide_True by (by left).
    destruct (reverse out) as [|e es] eqn:Hes.
    + cbn. unfold filepath.cleanStep.
      rewrite decide_True by (by left).
      apply (f_equal reverse) in Hes.
      by rewrite reverse_involutive in Hes.
    + by rewrite elements_joinElements.
  - rewrite append_nil.
    destruct (reverse out) as [|e es] eqn:Hes.
    + clear. by destruct goos.
    + destruct Hout as [Hall _].
      assert (filepath.plain goos e ∧ filepath.real e) as [He Hreal].
      { apply (Forall_reverse _ out) in Hall. rewrite Hes in Hall.
        by inversion_clear Hall. }
      destruct (joinElements_head e es He Hreal) as (c & rest & Hjoin & Hc).
      rewrite decide_False by (by rewrite Hjoin).
      split; [by rewrite Hjoin|].
      replace (filepath.rooted goos (filepath.joinElements goos (e :: es)))
        with false by (by rewrite Hjoin).
      by rewrite elements_joinElements, Hagain.
Qed.

(** Below a directory that is named, an entry without [".."] adds its
    real elements to those of the directory. *)
Lemma cleanElements_below dir rel :
  dir ≠ "" →
  ".." ∉ filepath.elements goos rel →
  filepath.rooted goos (dir +:+ String (filepath.Separator goos) rel)
  = filepath.rooted goos dir
  ∧ filepath.cleanElements goos
      (dir +:+ String (filepath.Separator goos) rel)
    = filepath.cleanElements goos dir
      ++ filter filepath.real (filepath.elements goos rel).
Proof.
  intros Hdir Hrel.
  assert (filepath.rooted goos (dir +:+ String (filepath.Separator goos) rel)
          = filepath.rooted goos dir) as Hrooted.
  { by destruct dir. }
  split; [done|]. unfold filepath.cleanElements.
  rewrite Hrooted, elements_app_sep by apply Separator_isSep.
  rewrite foldl_app, foldl_step_no_dotdot by done.
  by rewrite reverse_app, reverse_involutive.
Qed.

(** What is joined below a directory stays within it, unless it has a
    [".."]. *)
Lemma Join_within dir rel :
  dir ≠ "" →
  ".." ∉ filepath.elements goos rel →
  filepath.within goos dir (filepath.Join goos [dir; rel]) = true.
Proof.
  intros Hdir Hrel. cbn [filepath.Join].
  rewrite decide_False by done. rewrite joinElements_cons.
  cbn [filepath.joinElements].
  destruct (Clean_elements (dir +:+ String (filepath.Separator goos) rel))
    as [Hrooted Helems].
  destruct (cleanElements_below dir rel Hdir Hrel) as [Hrooted' Helems'].
  unfold filepath.within. rewrite Hrooted, Helems, Hrooted', Helems'.
  rewrite take_app_length, drop_app_length.
  rewrite !bool_decide_eq_true_2; [done| |done|done].
  intros Hin. apply list_elem_of_filter in Hin as [_ Hin]. done.
Qed.

End cleaning.

(** ** The loop over the files *)

Section loop.

Variable env : Env.
Variable dr : cmd.downloadRequest.
Variable solution : workspace.Solution.

Local Arguments filepath.Join : simpl never.
Local Arguments filepath.Dir : simpl never.
Local Arguments filepath.FromSlash : simpl never.

Abbreviation goos := (GOOS env).

Lemma String_fresh target : url.String_ (url.mkURL target "") = target.
Proof. reflexivity. Qed.

(** An entry that is served: its file holds the body, and the body of
    the response and the file are open and wait for the function to
    return. *)
Lemma fetchFile_served file body w :
  cmd.served env dr solution file = Some body →
  cmd.fetchFile env dr solution file w
  = (rt.mkWorld
       (<[cmd.destination env solution file := body]> (rt.files w))
       ({[filepath.Join goos
            [workspace.Dir solution;
             filepath.Dir goos (filepath.FromSlash goos file)]]}
        ∪ rt.dirs w)
       (rt.requests w ++ [cmd.fileURL dr file])
       (rt.stderr w) (rt.stdout w)
       (rt.File (cmd.destination env solution file)
        :: rt.Body (cmd.fileURL dr file) :: rt.opened w)
       (rt.File (cmd.destination env solution file)
        :: rt.Body (cmd.fileURL dr file) :: rt.deferred w),
     rt.Next tt).
Proof.
  unfold cmd.served, cmd.fetchFile, cmd.fileURL, cmd.destination.
  intros Hserved.
  destruct (rejectsURL env _) eqn:Hurl; [done|].
  destruct (RoundTrip env _) as [res|] eqn:Hres; [|done].
  destruct (refusesCreate env _) eqn:Hcreate; [done|].
  destruct (decide _) as [(Hstatus & Hlength & Hbody)|]; [|done].
  injection Hserved as <-.
  unfold rt.bind, cmd.BailOnError, api.NewRequest, api.Do.
  rewrite Hurl. cbn. rewrite !String_fresh, Hres. cbn.
  rewrite decide_False by (by intros []).
  rewrite decide_False by done.
  unfold rt.bind, rt.MkdirAll, rt.Create. cbn. rewrite Hcreate. cbn.
  rewrite Hbody. cbn. rewrite lookup_insert_eq. cbn.
  by rewrite insert_insert_eq.
Qed.

(** An entry whose response is a 200 with [Content-Length: 0]: the
    body of the loop ends with nothing created. *)
Lemma fetchFile_empty file res w :
  rejectsURL env (cmd.fileURL dr file) = None →
  RoundTrip env (cmd.fileURL dr file) = rt.Ok res →
  http.StatusCode res = http.StatusOK →
  http.Get (http.Header res) "Content-Length" = "0" →
  cmd.fetchFile env dr solution file w
  = (rt.mkWorld (rt.files w) (rt.dirs w)
       (rt.requests w ++ [cmd.fileURL dr file])
       (rt.stderr w) (rt.stdout w)
       (rt.Body (cmd.fileURL dr file) :: rt.opened w)
       (rt.Body (cmd.fileURL dr file) :: rt.deferred w),
     rt.Next tt).
Proof.
  unfold cmd.fetchFile, cmd.fileURL. intros Hurl Hres Hstatus Hlength.
  unfold rt.bind, cmd.BailOnError, api.NewRequest, api.Do.
  rewrite Hurl. cbn. rewrite !String_fresh, Hres. cbn.
  rewrite decide_False by (by intros []).
  by rewrite decide_True.
Qed.

(** Whatever becomes of an entry, no file but the one at its
    destination is touched. *)
Lemma fetchFile_elsewhere file w path :
  path ≠ cmd.destination env solution file →
  rt.files (cmd.fetchFile env dr solution file w).1 !! path
  = rt.files w !! path.
Proof.
  unfold cmd.fetchFile, cmd.destination. intros Hpath.
  unfold rt.bind, cmd.BailOnError, api.NewRequest, api.Do.
  destruct (rejectsURL env _); [done|]. cbn.
  destruct (RoundTrip env _) as [res|]; [|done]. cbn.
  destruct (decide (http.StatusCode res ≠ _)); [done|].
  destruct (decide (http.Get _ _ = _)); [done|].
  unfold rt.bind, rt.MkdirAll, rt.Create. cbn.
  destruct (refusesCreate env _); [done|]. cbn.
  destruct (http.BodyErr res); cbn; by rewrite !lookup_insert_ne.
Qed.

Abbreviation written := (cmd.written env dr solution).
Abbreviation handles := (cmd.handles env dr solution).

Lemma fetchFiles_served files w :
  Forall (λ file, is_Some (cmd.served env dr solution file)) files →
  ∃ w',
    rt.forRange files (cmd.fetchFile env dr solution) w = (w', rt.Next tt)
    ∧ rt.files w' = written files (rt.files w)
    ∧ rt.requests w' = rt.requests w ++ (cmd.fileURL dr <$> files)
    ∧ rt.stderr w' = rt.stderr w
    ∧ rt.stdout w' = rt.stdout w
    ∧ rt.opened w' = handles files ++ rt.opened w
    ∧ rt.deferred w' = handles files ++ rt.deferred w.
Proof.
  intros Hfiles. revert w.
  induction Hfiles as [|file files [body Hbody] _ IH]; intros w.
  { exists w. split_and!; try done. by rewrite app_nil_r. }
  cbn [rt.forRange]. unfold rt.bind at 1.
  rewrite (fetchFile_served file body w Hbody).
  destruct (IH (rt.mkWorld
       (<[cmd.destination env solution file := body]> (rt.files w))
       ({[filepath.Join goos
            [workspace.Dir solution;
             filepath.Dir goos (filepath.FromSlash goos file)]]}
        ∪ rt.dirs w)
       (rt.requests w ++ [cmd.fileURL dr file])
       (rt.stderr w) (rt.stdout w)
       (rt.File (cmd.destination env solution file)
        :: rt.Body (cmd.fileURL dr file) :: rt.opened w)
       (rt.File (cmd.destination env solution file)
        :: rt.Body (cmd.fileURL dr file) :: rt.deferred w)))
    as (w' & Hrun & Hf & Hr & He & Ho & Hop & Hd).
  cbn [rt.files rt.requests rt.stderr rt.stdout rt.opened rt.deferred]
    in *.
  exists w'. split_and!; try done.
  - rewrite Hf. unfold cmd.written. cbn [foldl]. by rewrite Hbody.
  - by rewrite Hr, fmap_cons, <- app_assoc.
  - rewrite Hop. unfold cmd.handles. rewrite reverse_cons, bind_app.
    by rewrite <- app_assoc.
  - rewrite Hd. unfold cmd.handles. rewrite reverse_cons, bind_app.
    by rewrite <- app_assoc.
Qed.

Lemma written_elsewhere files before path :
  path ∉ cmd.destination env solution <$> files →
  written files before !! path = before !! path.
Proof.
  revert before. induction files as [|file files IH]; intros before Hpath;
    [done|].
  rewrite fmap_cons in Hpath. apply not_elem_of_cons in Hpath as [Hne Hpath].
  unfold cmd.written in *. cbn [foldl]. rewrite IH by done.
  by rewrite lookup_insert_ne.
Qed.

Lemma written_destination files before file :
  NoDup (cmd.destination env solution <$> files) →
  Forall (λ file, is_Some (cmd.served env dr solution file)) files →
  file ∈ files →
  written files before !! cmd.destination env solution file
  = cmd.served env dr solution file.
Proof.
  revert before. induction files as [|f files IH];
    intros before Hdup Hserved Hin; [by apply elem_of_nil in Hin|].
  rewrite fmap_cons in Hdup. apply NoDup_cons in Hdup as [Hf Hdup].
  inversion_clear Hserved as [|?? [body Hbody] Hserved'].
  change (written (f :: files) before)
    with (written files
            (<[cmd.destination env solution f
               := default [] (cmd.served env dr solution f)]> before)).
  apply elem_of_cons in Hin as [->|Hin].
  - rewrite written_elsewhere by done.
    by rewrite lookup_insert_eq, Hbody.
  - by apply IH.
Qed.

End loop.

(** ** After the first response *)

Section finish.

Variable env : Env.
Variable dr : cmd.downloadRequest.

Local Arguments filepath.Join : simpl never.
Local Arguments filepath.Dir : simpl never.
Local Arguments filepath.FromSlash : simpl never.

Lemma respond_OK res w :
  http.StatusCode res = http.StatusOK →
  cmd.respond env res dr w = (w, rt.Next tt).
Proof.
  intros Hres. unfold cmd.respond.
  rewrite decide_False; [done|]. intros Hne. by apply Hne.
Qed.

Lemma materialize_placed w :
  refusesCreate env (cmd.solutionMarker env dr) = None →
  cmd.materialize env dr w
  = (rt.mkWorld
       (<[cmd.solutionMarker env dr := marshal env (cmd.newSolution dr)]>
          (rt.files w))
       ({[cmd.solutionDir env dr]}
        ∪ ({[filepath.Join (GOOS env)
               [api.Workspace (cmd.client dr);
                workspace.PathToParent (cmd.newSolution dr)]]}
           ∪ rt.dirs w))
       (rt.requests w) (rt.stderr w) (rt.stdout w) (rt.opened w)
       (rt.deferred w),
     rt.Next (cmd.placed env dr)).
Proof.
  unfold cmd.solutionMarker, cmd.solutionDir, cmd.placed. intros Hmarker.
  unfold cmd.materialize, rt.bind, workspace.SolutionPath, workspace.Write.
  cbn in *. by rewrite Hmarker.
Qed.

End finish.

Example solutionDir_sample :
  cmd.solutionDir sample.unix (sample.holding []) = "/ws/ruby/bob/abc"
  ∧ cmd.placed sample.unix (sample.holding []) = sample.solution
  ∧ cmd.destination sample.unix sample.solution "lib/util.rb"
    = "/ws/ruby/bob/abc/lib/util.rb".
Proof. repeat split; reflexivity. Qed.

(** C1, as corrected.  Take a download request that holds a success
    envelope with N entries.  If every entry is served (its GET is
    answered by a 200 whose Content-Length is not "0", and neither the
    request, the reading of the body nor the creation of the file
    fails), and the N destinations are pairwise distinct, then the
    command runs to its end, each entry's file, at workspace root /
    track / exercise / solution id joined with the entry's path in local
    separators, holds exactly the body of the entry's response, and no
    other file but the marker of the solution is touched.  (How the
    envelope gets into the request is left out: see C5.) *)
Theorem C1_served_entries_are_written (env : Env) (res : http.Response)
    (dr : cmd.downloadRequest) (w : rt.World) :
  let files := payload.Solution.Files (payload.Solution (cmd.payload dr)) in
  let solution := cmd.placed env dr in
  http.StatusCode res = http.StatusOK →
  refusesCreate env (cmd.solutionMarker env dr) = None →
  Forall (λ file, is_Some (cmd.served env dr solution file)) files →
  NoDup (cmd.destination env solution <$> files) →
  ∃ w',
    cmd.finish env res dr w = (w', rt.Next tt)
    ∧ (∀ file, file ∈ files →
         rt.files w'
           !! filepath.Join (GOOS env)
                [cmd.solutionDir env dr; filepath.FromSlash (GOOS env) file]
         = cmd.served env dr solution file)
    ∧ (∀ path, path ∉ cmd.destination env solution <$> files →
         path ≠ cmd.solutionMarker env dr →
         rt.files w' !! path = rt.files w !! path).
Proof.
  intros files solution Hres Hmarker Hserved Hdup.
  unfold cmd.finish, rt.bind.
  rewrite respond_OK by done. rewrite materialize_placed by done.
  unfold cmd.fetchFiles. fold files. fold solution.
  edestruct (fetchFiles_served env dr solution files) as
    (w' & -> & Hfiles & _ & _ & Hout & _ & _); [done|].
  eexists. split; [reflexivity|]. cbn [rt.files rt.Oprint fst] in *.
  rewrite Hfiles. split.
  - intros file Hin.
    by apply (written_destination env dr solution files).
  - intros path Hpath Hne.
    rewrite written_elsewhere by done. by rewrite lookup_insert_ne.
Qed.

Lemma C1_served_entries_are_written_witness :
  ∃ w',
    cmd.finish sample.unix (sample.reply 200 "8" "envelope")
      (sample.holding ["bob.rb"; "lib/util.rb"]) sample.blank
    = (w', rt.Next tt)
    ∧ rt.files w' !! "/ws/ruby/bob/abc/bob.rb" = Some (sample.bytes "puts 1")
    ∧ rt.files w' !! "/ws/ruby/bob/abc/lib/util.rb" = Some (sample.bytes "x")
    ∧ rt.files w' !! "/ws/ruby/bob/abc/README.md" = None.
Proof.
  destruct (C1_served_entries_are_written sample.unix
              (sample.reply 200 "8" "envelope")
              (sample.holding ["bob.rb"; "lib/util.rb"]) sample.blank)
    as (w' & Hrun & Hin & Hout).
  - reflexivity.
  - reflexivity.
  - decided.
  - decided.
  - exists w'. split; [exact Hrun|]. split_and!.
    + apply (Hin "bob.rb"). decided.
    + apply (Hin "lib/util.rb"). decided.
    + rewrite (Hout "/ws/ruby/bob/abc/README.md"); [reflexivity| |].
      * decided.
      * decided.
Defined.

(** C1 as stated fails in both of these runs on envelopes whose entries
    all have responses of non-zero content length.  In the first the one
    entry is answered by a 404 with [Content-Length: 9]: the run ends in
    the fatal error and the marker of the solution is the only file.  In
    the second the two entries are served and name the same file: one
    file is written, and it holds the body of the second response. *)
Lemma C1_counterexample :
  let run files :=
    cmd.finish sample.unix (sample.reply 200 "8" "envelope")
      (sample.holding files) sample.blank in
  (sample.server "https://files.test/abc/gone.rb"
     = rt.Ok (sample.reply 404 "9" "not found")
   ∧ (run ["gone.rb"]).2 = rt.Fatal "Failed to download: gone.rb"
   ∧ dom (rt.files (run ["gone.rb"]).1)
     = {[ "/ws/ruby/bob/abc/.solution.json" ]})
  ∧ (cmd.served sample.unix (sample.holding []) sample.solution "bob.rb"
       = Some (sample.bytes "puts 1")
     ∧ cmd.served sample.unix (sample.holding []) sample.solution "./bob.rb"
       = Some (sample.bytes "puts 2")
     ∧ (run ["bob.rb"; "./bob.rb"]).2 = rt.Next tt
     ∧ dom (rt.files (run ["bob.rb"; "./bob.rb"]).1)
       = {[ "/ws/ruby/bob/abc/.solution.json"; "/ws/ruby/bob/abc/bob.rb" ]}
     ∧ rt.files (run ["bob.rb"; "./bob.rb"]).1 !! "/ws/ruby/bob/abc/bob.rb"
       = Some (sample.bytes "puts 2")).
Proof. cbv zeta. split_and!; try (vm_compute; reflexivity); decided. Qed.

(** C4, as corrected.  For every entry of the loop whose GET is answered
    by a 200 that carries [Content-Length: 0], the body of the loop ends
    without a file or a directory created, and the loop goes on with the
    next entry. *)
Theorem C4_empty_response_is_skipped (env : Env) (dr : cmd.downloadRequest)
    (solution : workspace.Solution) (file : string) (rest : list string)
    (res : http.Response) (w : rt.World) :
  rejectsURL env (cmd.fileURL dr file) = None →
  RoundTrip env (cmd.fileURL dr file) = rt.Ok res →
  http.StatusCode res = http.StatusOK →
  http.Get (http.Header res) "Content-Length" = "0" →
  ∃ w',
    cmd.fetchFile env dr solution file w = (w', rt.Next tt)
    ∧ rt.files w' = rt.files w
    ∧ rt.dirs w' = rt.dirs w
    ∧ rt.forRange (file :: rest) (cmd.fetchFile env dr solution) w
      = rt.forRange rest (cmd.fetchFile env dr solution) w'.
Proof.
  intros Hurl Hres Hstatus Hlength.
  eexists. split; [by apply (fetchFile_empty env dr solution file res)|].
  split_and!; [done|done|].
  cbn [rt.forRange]. unfold rt.bind at 1.
  by rewrite (fetchFile_empty env dr solution file res).
Qed.

Lemma C4_empty_response_is_skipped_witness :
  ∃ w',
    cmd.fetchFile sample.unix (sample.holding ["empty.rb"; "bob.rb"])
      sample.solution "empty.rb" sample.blank = (w', rt.Next tt)
    ∧ rt.files w' = ∅
    ∧ rt.dirs w' = ∅
    ∧ rt.forRange ["empty.rb"; "bob.rb"]
        (cmd.fetchFile sample.unix (sample.holding ["empty.rb"; "bob.rb"])
           sample.solution) sample.blank
      = rt.forRange ["bob.rb"]
          (cmd.fetchFile sample.unix (sample.holding ["empty.rb"; "bob.rb"])
             sample.solution) w'.
Proof.
  apply (C4_empty_response_is_skipped sample.unix
           (sample.holding ["empty.rb"; "bob.rb"]) sample.solution
           "empty.rb" ["bob.rb"] (sample.reply 200 "0" "") sample.blank);
    reflexivity.
Defined.

(** C4 as stated fails for an entry whose response carries
    [Content-Length: 0] and is not a 200: no file is created, but the
    fatal error ends the run and the next entry is never requested. *)
Lemma C4_counterexample :
  let after :=
    cmd.fetchFiles sample.unix (sample.holding ["void.rb"; "bob.rb"])
      sample.solution sample.blank in
  sample.server "https://files.test/abc/void.rb"
    = rt.Ok (sample.reply 404 "0" "")
  ∧ http.Get (http.Header (sample.reply 404 "0" "")) "Content-Length" = "0"
  ∧ after.2 = rt.Fatal "Failed to download: void.rb"
  ∧ rt.exitStatus after.2 = 1
  ∧ rt.requests after.1 = ["https://files.test/abc/void.rb"]
  ∧ rt.files after.1 = ∅.
Proof. cbv zeta. split_and!; vm_compute; reflexivity. Qed.

(** C8, as corrected.  For every entry of the file list that has no
    [".."] among its path name elements, and a solution directory that
    is named, any file one turn of the loop creates or changes is within
    the solution directory.  (Nothing in the command looks at the
    elements of an entry: see the counterexample.) *)
Theorem C8_without_dotdot_within_solution (env : Env)
    (dr : cmd.downloadRequest) (solution : workspace.Solution)
    (file : string) (w : rt.World) (path : string) :
  workspace.Dir solution ≠ "" →
  ".." ∉ filepath.elements (GOOS env) file →
  rt.files (cmd.fetchFile env dr solution file w).1 !! path
    ≠ rt.files w !! path →
  filepath.within (GOOS env) (workspace.Dir solution) path = true.
Proof.
  intros Hdir Hfile Hpath.
  destruct (decide (path = cmd.destination env solution file)) as [->|Hne].
  - apply Join_within; [done|]. by rewrite elements_FromSlash.
  - destruct Hpath. by apply fetchFile_elsewhere.
Qed.

Lemma C8_without_dotdot_within_solution_witness :
  filepath.within filepath.unix "/ws/ruby/bob/abc"
    "/ws/ruby/bob/abc/lib/util.rb" = true.
Proof.
  apply (C8_without_dotdot_within_solution sample.unix
           (sample.holding ["lib/util.rb"]) sample.solution "lib/util.rb"
           sample.blank "/ws/ruby/bob/abc/lib/util.rb").
  - discriminate.
  - decided.
  - vm_compute. discriminate.
Defined.

(** C8 as stated fails: an entry with enough [".."] elements has its
    file written outside the solution directory. *)
Lemma C8_counterexample :
  let file := "../../../../etc/passwd" in
  let after :=
    (cmd.fetchFile sample.unix (sample.holding [file]) sample.solution file
       sample.blank).1 in
  workspace.Dir sample.solution = "/ws/ruby/bob/abc"
  ∧ cmd.destination sample.unix sample.solution file = "/etc/passwd"
  ∧ rt.files after !! "/etc/passwd" = Some (sample.bytes "root")
  ∧ filepath.within filepath.unix "/ws/ruby/bob/abc" "/etc/passwd" = false.
Proof. cbv zeta. split_and!; vm_compute; reflexivity. Qed.

(** The handles of the entries the loop has served are all open when the
    loop ends: no turn of the loop closes any. *)
Lemma fetchFiles_keeps_handles (env : Env) (dr : cmd.downloadRequest)
    (solution : workspace.Solution) (files : list string) (w : rt.World) :
  Forall (λ file, is_Some (cmd.served env dr solution file)) files →
  rt.opened (rt.forRange files (cmd.fetchFile env dr solution) w).1
  = cmd.handles env dr solution files ++ rt.opened w.
Proof.
  intros Hfiles.
  destruct (fetchFiles_served env dr solution files w Hfiles)
    as (w' & -> & _ & _ & _ & _ & Hopened & _).
  done.
Qed.

(** C9 fails on the code.  With two entries, the second turn of the loop
    starts with the response body and the file of the first turn open;
    when the loop ends all four handles are open.  The calls that close
    them are deferred: they run where [Run] returns, and not at all
    where the process exits. *)
Theorem C9_handles_accumulate :
  let dr := sample.holding ["bob.rb"; "lib/util.rb"] in
  let turn := cmd.fetchFile sample.unix dr sample.solution in
  let first := turn "bob.rb" sample.blank in
  let second := turn "lib/util.rb" first.1 in
  cmd.fetchFiles sample.unix dr sample.solution sample.blank = second
  ∧ first.2 = rt.Next tt
  ∧ rt.opened first.1
    = [rt.File "/ws/ruby/bob/abc/bob.rb";
       rt.Body "https://files.test/abc/bob.rb"]
  ∧ second.2 = rt.Next tt
  ∧ rt.opened second.1
    = [rt.File "/ws/ruby/bob/abc/lib/util.rb";
       rt.Body "https://files.test/abc/lib/util.rb";
       rt.File "/ws/ruby/bob/abc/bob.rb";
       rt.Body "https://files.test/abc/bob.rb"]
  ∧ rt.deferred second.1 = rt.opened second.1
  ∧ rt.opened (rt.runDeferred second.1).1 = [].
Proof. cbv zeta. split_and!; vm_compute; reflexivity. Qed.

(** C10.  With an empty [uuid] flag and no positional argument, [Run]
    writes the message to standard error and returns: no request is
    made, no file or directory is created, and the process is not
    exited. *)
Theorem C10_nothing_to_download (env : Env) (flags : gmap string string)
    (w : rt.World) :
  flags !! "uuid" = Some "" →
  cmd.Run env flags [] w
  = (rt.mkWorld (rt.files w) (rt.dirs w) (rt.requests w)
       (rt.stderr w +:+ "need an exercise name or a solution --uuid")
       (rt.stdout w) (rt.opened w) (rt.deferred w),
     rt.Next tt).
Proof.
  intros Huuid. unfold cmd.Run, rt.bind, cmd.BailOnError, cmd.GetString.
  rewrite Huuid. by rewrite decide_True.
Qed.

Lemma C10_nothing_to_download_witness :
  cmd.Run sample.unix cmd.initDownloadCmd [] sample.blank
  = (rt.mkWorld ∅ ∅ [] "need an exercise name or a solution --uuid" "" [] [],
     rt.Next tt).
Proof.
  apply (C10_nothing_to_download sample.unix cmd.initDownloadCmd sample.blank).
  reflexivity.
Defined.

(** ** The first request *)

(** A name made of unreserved characters, as the slugs of exercises and
    tracks are, is its own escaped form. *)
Lemma QueryEscape_unreserved (s : string) :
  Forall (λ c, url.shouldEscape c = false) (list_ascii_of_string s) →
  url.QueryEscape s = s.
Proof.
  induction s as [|c s IH]; [done|].
  intros Hs. inversion_clear Hs as [|?? Hc Hs'].
  cbn [url.QueryEscape]. rewrite Hc, (IH Hs').
  destruct (Ascii.eqb_spec c " ") as [->|]; [discriminate Hc|done].
Qed.

(** C2.  With an empty uuid, [newDownloadRequest] asks for
    [.../download/latest] with the query [exercise_id=<exercise>] and,
    after it, [&track_id=<track>] when the track is not empty; with an
    empty track the query ends after the exercise.  The values stand in
    the query as [Encode] writes them. *)
Theorem C2_latest_by_exercise_and_track (env : Env) (base : string)
    (client : api.Client) (track exercise : string) :
  NewAPIConfig env = rt.Ok base →
  NewClient env = rt.Ok client →
  rejectsURL env (base +:+ "/download/latest") = None →
  ∃ dr,
    cmd.newDownloadRequest env "" track exercise = rt.Ok dr
    ∧ http.Method (cmd.request dr) = "GET"
    ∧ (track ≠ "" →
       url.String_ (http.URL (cmd.request dr))
       = base +:+ "/download/latest?exercise_id=" +:+ url.QueryEscape exercise
         +:+ "&track_id=" +:+ url.QueryEscape track)
    ∧ (track = "" →
       url.String_ (http.URL (cmd.request dr))
       = base +:+ "/download/latest?exercise_id=" +:+ url.QueryEscape exercise).
Proof.
  intros Hcfg Hclient Hurl.
  unfold cmd.newDownloadRequest, api.NewRequest, config.URL.
  rewrite Hcfg, Hclient. rewrite !(decide_True (P := "" = "")) by done.
  change (base +:+ "/" +:+ "download" +:+ "/" +:+ "latest")
    with (base +:+ "/download/latest").
  rewrite Hurl.
  eexists. split; [reflexivity|]. split; [reflexivity|].
  cbn [cmd.request http.URL http.Method url.Location url.RawQuery].
  unfold url.String_, url.Query.
  cbn [cmd.request http.URL http.Method url.Location url.RawQuery].
  rewrite !(decide_True (P := "" = "")) by done.
  split; intros Htrack.
  - rewrite !(decide_True (P := track ≠ "")) by done.
    assert (url.Encode
              (url.Add (url.Add [] "exercise_id" exercise) "track_id" track)
            = "exercise_id=" +:+ url.QueryEscape exercise
              +:+ "&track_id=" +:+ url.QueryEscape track) as ->.
    { vm_compute. reflexivity. }
    rewrite decide_False by discriminate.
    simpl. rewrite append_assoc. reflexivity.
  - rewrite !(decide_False (P := track ≠ "")) by (by intros Hne).
    assert (url.Encode (url.Add [] "exercise_id" exercise)
            = "exercise_id=" +:+ url.QueryEscape exercise) as ->.
    { vm_compute. reflexivity. }
    rewrite decide_False by discriminate.
    simpl. rewrite append_assoc. reflexivity.
Qed.

Lemma C2_latest_by_exercise_and_track_witness :
  ∃ dr,
    cmd.newDownloadRequest sample.unix "" "ruby" "two fer" = rt.Ok dr
    ∧ url.String_ (http.URL (cmd.request dr))
      = "https://api.test/v1/download/latest?exercise_id=two+fer&track_id=ruby".
Proof.
  destruct (C2_latest_by_exercise_and_track sample.unix "https://api.test/v1"
              (api.mkClient "/ws") "ruby" "two fer")
    as (dr & Hdr & _ & Hwith & _); [reflexivity..|].
  exists dr. split; [exact Hdr|]. rewrite Hwith; [reflexivity|discriminate].
Defined.

(** C3.  With a uuid that is not empty, [newDownloadRequest] asks for
    [.../download/<uuid>] and sets no query, whatever the exercise and
    the track. *)
Theorem C3_by_uuid (env : Env) (base : string) (client : api.Client)
    (uuid track exercise : string) :
  uuid ≠ "" →
  NewAPIConfig env = rt.Ok base →
  NewClient env = rt.Ok client →
  rejectsURL env (base +:+ "/download/" +:+ uuid) = None →
  ∃ dr,
    cmd.newDownloadRequest env uuid track exercise = rt.Ok dr
    ∧ http.Method (cmd.request dr) = "GET"
    ∧ url.RawQuery (http.URL (cmd.request dr)) = ""
    ∧ url.String_ (http.URL (cmd.request dr)) = base +:+ "/download/" +:+ uuid.
Proof.
  intros Huuid Hcfg Hclient Hurl.
  unfold cmd.newDownloadRequest, api.NewRequest, config.URL.
  rewrite Hcfg, Hclient. rewrite !(decide_False (P := uuid = "")) by done.
  change (base +:+ "/" +:+ "download" +:+ "/" +:+ uuid)
    with (base +:+ "/download/" +:+ uuid).
  rewrite Hurl. cbv beta iota.
  rewrite (decide_False (P := uuid = "")) by done.
  eexists. split; [reflexivity|].
  split_and!; reflexivity.
Qed.

Lemma C3_by_uuid_witness :
  ∃ dr,
    cmd.newDownloadRequest sample.unix "8f3c" "ruby" "bob" = rt.Ok dr
    ∧ url.String_ (http.URL (cmd.request dr))
      = "https://api.test/v1/download/8f3c".
Proof.
  destruct (C3_by_uuid sample.unix "https://api.test/v1" (api.mkClient "/ws")
              "8f3c" "ruby" "bob")
    as (dr & Hdr & _ & _ & Hurl); [discriminate|reflexivity..|].
  exists dr. split; [exact Hdr|exact Hurl].
Defined.

(** ** The first response *)

Lemma occursIn_app_r (piece before text : string) :
  occursIn piece text → occursIn piece (before +:+ text).
Proof.
  intros (a & b & ->). exists (before +:+ a), b. by rewrite append_assoc.
Qed.

Lemma occursIn_app_l (piece text after : string) :
  occursIn piece text → occursIn piece (text +:+ after).
Proof.
  intros (a & b & ->). exists a, (b +:+ after). by rewrite !append_assoc.
Qed.

Lemma occursIn_suffix (piece before : string) :
  occursIn piece (before +:+ piece).
Proof. exists before, "". by rewrite append_nil_r. Qed.

Lemma occursIn_concatenated (f : string → string) (ids : list string)
    (id : string) :
  id ∈ ids → occursIn (f id) (concatenated (f <$> ids)).
Proof.
  induction ids as [|x ids IH]; intros Hin; [by apply elem_of_nil in Hin|].
  rewrite fmap_cons. cbn [concatenated foldr].
  apply elem_of_cons in Hin as [->|Hin].
  - apply occursIn_app_l. exists "", "". by rewrite append_nil_r.
  - by apply occursIn_app_r, IH.
Qed.

Lemma occursIn_trans (a b c : string) :
  occursIn a b → occursIn b c → occursIn a c.
Proof.
  intros (x & y & ->) (x' & y' & ->).
  exists (x' +:+ x), (y +:+ y'). by rewrite !append_assoc.
Qed.

Lemma forRange_Eprint (f : string → string) (ids : list string) (w : rt.World) :
  rt.forRange ids (λ id, rt.Eprint (f id)) w
  = (rt.mkWorld (rt.files w) (rt.dirs w) (rt.requests w)
       (rt.stderr w +:+ concatenated (f <$> ids)) (rt.stdout w)
       (rt.opened w) (rt.deferred w),
     rt.Next tt).
Proof.
  revert w. induction ids as [|id ids IH]; intros w.
  - cbn. rewrite append_nil_r. by destruct w.
  - cbn [rt.forRange]. unfold rt.bind at 1. unfold rt.Eprint at 1.
    rewrite IH. cbn. by rewrite append_assoc.
Qed.

(** The branch of the ambiguous track, for a request that does hold the
    decoded error: every candidate track is named on standard error and
    the process exits with status 1. *)
Lemma respond_track_ambiguous (env : Env) (res : http.Response)
    (dr : cmd.downloadRequest) (w : rt.World) :
  http.StatusCode res ≠ http.StatusOK →
  payload.Error.Type_ (payload.Error (cmd.payload dr)) = "track_ambiguous" →
  ∃ w',
    cmd.respond env res dr w = (w', rt.Exit 1)
    ∧ ∀ id,
        id ∈ payload.Error.PossibleTrackIDs (payload.Error (cmd.payload dr)) →
        occursIn id (rt.stderr w').
Proof.
  intros Hstatus Htype. unfold cmd.respond.
  rewrite !decide_True by done.
  unfold rt.bind, rt.Eprint at 1 2. rewrite forRange_Eprint.
  eexists. split; [reflexivity|]. intros id Hid. cbn [rt.stderr].
  apply occursIn_app_r.
  eapply occursIn_trans;
    [|apply (occursIn_concatenated
               (λ id, BinName env +:+ " download " +:+ solutionExercise env
                      +:+ " --track=" +:+ id) _ id Hid)].
  rewrite <- !append_assoc. apply occursIn_suffix.
Qed.

(** The other branch, for a request that does hold the decoded error:
    the message is the fatal error. *)
Lemma respond_other_error (env : Env) (res : http.Response)
    (dr : cmd.downloadRequest) (w : rt.World) :
  http.StatusCode res ≠ http.StatusOK →
  payload.Error.Type_ (payload.Error (cmd.payload dr)) ≠ "track_ambiguous" →
  cmd.respond env res dr w
  = (w, rt.Fatal (payload.Error.Message (payload.Error (cmd.payload dr)))).
Proof.
  intros Hstatus Htype. unfold cmd.respond.
  by rewrite decide_True, decide_False.
Qed.

(** [Run] never sees what the first response decodes to: [do] decodes
    into its own copy of the request. *)
Lemma Run_forgets_envelope (env : Env) (flags : gmap string string)
    (args : list string) (w : rt.World) :
  cmd.Run env flags args w = cmd.Run (forgetful env) flags args w.
Proof.
  unfold cmd.Run, rt.bind, cmd.BailOnError.
  destruct (cmd.GetString flags "uuid") as [uuid|]; [|done].
  destruct (decide _); [done|].
  destruct (cmd.GetString flags "track") as [track|]; [|done].
  change (cmd.newDownloadRequest (forgetful env))
    with (cmd.newDownloadRequest env).
  destruct (cmd.newDownloadRequest env _ _ _) as [dr|]; [|done].
  unfold cmd.do, rt.bind, api.Do. cbn [RoundTrip Decode forgetful].
  destruct (RoundTrip env _) as [res|]; [|done].
  destruct (Decode env _); reflexivity.
Qed.

(** C5 fails on the code.  The server answers the request for exercise
    [leap] with a 400 whose body decodes to an error of type
    [track_ambiguous] with the candidates [ruby] and [python].  [Run]
    ends with a non-zero status, but nothing is written to standard
    error: the request it switches on holds the zero envelope, so the
    other branch is taken, with an empty message.  The branch of the
    ambiguous track does name both candidates when it is given the
    decoded error. *)
Theorem C5_candidate_tracks_are_not_emitted :
  let after := cmd.Run sample.unix cmd.initDownloadCmd ["leap"] sample.blank in
  let res := sample.reply 400 "9" "ambiguous" in
  sample.server "https://api.test/v1/download/latest?exercise_id=leap"
    = rt.Ok res
  ∧ sample.decode (http.Body res) = rt.Ok sample.ambiguous
  ∧ payload.Error.PossibleTrackIDs (payload.Error sample.ambiguous)
    = ["ruby"; "python"]
  ∧ rt.requests after.1
    = ["https://api.test/v1/download/latest?exercise_id=leap"]
  ∧ after.2 = rt.Fatal ""
  ∧ rt.exitStatus after.2 = 1
  ∧ rt.stderr after.1 = ""
  ∧ ¬ occursIn "ruby" (rt.stderr after.1)
  ∧ rt.stderr
      (cmd.respond sample.unix res
         (cmd.mkDownloadRequest (api.mkClient "/ws")
            (http.mkRequest "GET" (url.mkURL "" "")) sample.ambiguous)
         sample.blank).1
    = "You have multiple  exercises available to you." +:+ rt.LF
      +:+ "Specify the the --track flag:" +:+ rt.LF
      +:+ "exercism download  --track=ruby"
      +:+ "exercism download  --track=python".
Proof.
  cbv zeta. split_and!; try (vm_compute; reflexivity).
  assert (rt.stderr
            (cmd.Run sample.unix cmd.initDownloadCmd ["leap"] sample.blank).1
          = "") as -> by (vm_compute; reflexivity).
  intros (before & after & Heq). by destruct before.
Qed.

(** C6 fails on the code.  The server answers the request for exercise
    [nope] with a 404 whose body decodes to an error with the message
    "not found" and no type.  [Run] ends with a non-zero status, but the
    fatal error it reports has the empty message of the zero envelope,
    not the message of the response.  The branch does report the message
    when it is given the decoded error. *)
Theorem C6_message_is_not_surfaced :
  let after := cmd.Run sample.unix cmd.initDownloadCmd ["nope"] sample.blank in
  let res := sample.reply 404 "7" "missing" in
  sample.server "https://api.test/v1/download/latest?exercise_id=nope"
    = rt.Ok res
  ∧ sample.decode (http.Body res) = rt.Ok sample.missing
  ∧ payload.Error.Message (payload.Error sample.missing) = "not found"
  ∧ after.2 = rt.Fatal ""
  ∧ after.2 ≠ rt.Fatal "not found"
  ∧ rt.exitStatus after.2 = 1
  ∧ (cmd.respond sample.unix res
       (cmd.mkDownloadRequest (api.mkClient "/ws")
          (http.mkRequest "GET" (url.mkURL "" "")) sample.missing)
       sample.blank).2
    = rt.Fatal "not found".
Proof.
  cbv zeta. split_and!; try (vm_compute; reflexivity).
  assert ((cmd.Run sample.unix cmd.initDownloadCmd ["nope"] sample.blank).2
          = rt.Fatal "") as -> by (vm_compute; reflexivity).
  discriminate.
Qed.


(** * Further properties of [download.go] *)

(** ** Returning *)

Lemma forRange_Close (hs : list rt.Resource) (w : rt.World) :
  rt.forRange hs rt.Close w
  = (rt.mkWorld (rt.files w) (rt.dirs w) (rt.requests w) (rt.stderr w)
       (rt.stdout w) (foldl (λ o h, rt.release h o) (rt.opened w) hs)
       (rt.deferred w),
     rt.Next tt).
Proof.
  revert w. induction hs as [|h hs IH]; intros w.
  - by destruct w.
  - cbn [rt.forRange]. unfold rt.bind at 1. unfold rt.Close at 1.
    by rewrite IH.
Qed.

Lemma runDeferred_world (w : rt.World) :
  rt.runDeferred w
  = (rt.mkWorld (rt.files w) (rt.dirs w) (rt.requests w) (rt.stderr w)
       (rt.stdout w)
       (foldl (λ o h, rt.release h o) (rt.opened w) (rt.deferred w)) [],
     rt.Next tt).
Proof. unfold rt.runDeferred. by rewrite forRange_Close. Qed.

Lemma release_all (hs o : list rt.Resource) :
  foldl (λ o h, rt.release h o) (hs ++ o) hs = o.
Proof.
  induction hs as [|h hs IH]; [done|].
  cbn [foldl app rt.release]. by rewrite decide_True.
Qed.

(** ** The request of [Run] *)

Lemma newDownloadRequest_payload (env : Env) (uuid track exercise : string)
    (dr : cmd.downloadRequest) :
  cmd.newDownloadRequest env uuid track exercise = rt.Ok dr →
  cmd.payload dr = payload.zero.
Proof.
  unfold cmd.newDownloadRequest, api.NewRequest.
  destruct (NewAPIConfig env); [|done].
  destruct (NewClient env); [|done].
  destruct (rejectsURL env _); [done|].
  by intros [= <-].
Qed.

Lemma newDownloadRequest_by_uuid (env : Env)
    (uuid track exercise track' exercise' : string) :
  uuid ≠ "" →
  cmd.newDownloadRequest env uuid track exercise
  = cmd.newDownloadRequest env uuid track' exercise'.
Proof.
  intros Huuid. unfold cmd.newDownloadRequest, api.NewRequest.
  destruct (NewAPIConfig env); [|done].
  destruct (NewClient env); [|done].
  rewrite (decide_False (P := uuid = "")) by done.
  destruct (rejectsURL env _); [done|].
  cbv beta iota. rewrite !(decide_False (P := uuid = "")) by done.
  reflexivity.
Qed.

(** [Run] once the flags are read and something names what to download:
    the request is built and done, and the rest follows. *)
Lemma Run_proceeds (env : Env) (flags : gmap string string)
    (args : list string) (uuid track : string) (w : rt.World) :
  flags !! "uuid" = Some uuid →
  flags !! "track" = Some track →
  ¬ (uuid = "" ∧ length args = 0%nat) →
  cmd.Run env flags args w
  = match cmd.newDownloadRequest env uuid track
            (match args with a :: _ => a | [] => "" end) with
    | rt.Err e => (w, rt.Fatal e)
    | rt.Ok dr =>
        rt.bind (cmd.do env dr)
          (λ done, rt.bind (cmd.BailOnError done.1)
             (λ res, rt.bind (cmd.finish env res dr) (λ _, rt.runDeferred)))
          w
    end.
Proof.
  intros Huuid Htrack Hsome.
  unfold cmd.Run, rt.bind at 1, cmd.BailOnError at 1, cmd.GetString.
  rewrite Huuid, decide_False by done.
  unfold rt.bind at 1, cmd.BailOnError at 1. rewrite Htrack.
  unfold rt.bind at 1, cmd.BailOnError at 1.
  by destruct (cmd.newDownloadRequest env _ _ _).
Qed.

(** ** What [Run] does with its arguments *)

(** X1.  Of the positional arguments [Run] reads the first: the others
    change nothing. *)
Theorem Run_reads_the_first_argument (env : Env)
    (flags : gmap string string) (a : string) (rest : list string)
    (w : rt.World) :
  cmd.Run env flags (a :: rest) w = cmd.Run env flags [a] w.
Proof.
  unfold cmd.Run, rt.bind, cmd.BailOnError, cmd.GetString.
  destruct (flags !! "uuid") as [uuid|]; [|done].
  rewrite !decide_False by (by intros [_ ?]). done.
Qed.

(** X2.  With a uuid, neither the positional arguments nor the value of
    the track flag change what [Run] does. *)
Theorem Run_by_uuid_ignores_exercise_and_track (env : Env)
    (flags flags' : gmap string string) (args args' : list string)
    (uuid track track' : string) (w : rt.World) :
  uuid ≠ "" →
  flags !! "uuid" = Some uuid → flags !! "track" = Some track →
  flags' !! "uuid" = Some uuid → flags' !! "track" = Some track' →
  cmd.Run env flags args w = cmd.Run env flags' args' w.
Proof.
  intros Hne Huuid Htrack Huuid' Htrack'.
  rewrite (Run_proceeds env flags args uuid track) by (done || by intros [? _]).
  rewrite (Run_proceeds env flags' args' uuid track')
    by (done || by intros [? _]).
  by rewrite (newDownloadRequest_by_uuid env uuid track _ track'
                (match args' with a :: _ => a | [] => "" end)).
Qed.

Lemma Run_by_uuid_ignores_exercise_and_track_witness :
  cmd.Run sample.unix (<["uuid" := "8f3c"]> cmd.initDownloadCmd) ["bob"]
    sample.blank
  = cmd.Run sample.unix
      (<["track" := "ruby"]> (<["uuid" := "8f3c"]> cmd.initDownloadCmd)) []
      sample.blank.
Proof.
  apply (Run_by_uuid_ignores_exercise_and_track sample.unix _ _ _ _
           "8f3c" "" "ruby"); [discriminate|reflexivity..].
Defined.

(** X3.  When the configuration cannot be loaded, or the client cannot
    be made, [Run] ends with that error and has done nothing: no
    request, no directory, no file, no output. *)
Theorem Run_without_configuration_or_client (env : Env)
    (flags : gmap string string) (args : list string)
    (uuid track : string) (e : rt.Error) (w : rt.World) :
  flags !! "uuid" = Some uuid →
  flags !! "track" = Some track →
  ¬ (uuid = "" ∧ length args = 0%nat) →
  NewAPIConfig env = rt.Err e
  ∨ (∃ base, NewAPIConfig env = rt.Ok base ∧ NewClient env = rt.Err e) →
  cmd.Run env flags args w = (w, rt.Fatal e).
Proof.
  intros Huuid Htrack Hsome Hfails.
  rewrite (Run_proceeds env flags args uuid track) by done.
  unfold cmd.newDownloadRequest.
  destruct Hfails as [->|(base & -> & ->)]; done.
Qed.

Lemma Run_without_configuration_or_client_witness :
  let env :=
    mkEnv filepath.unix "exercism" "" (rt.Err "no configuration")
      (rt.Ok (api.mkClient "/ws")) (λ _, None) (λ _, []) sample.server
      sample.decode (λ _, None) ".solution.json" (λ _, []) in
  cmd.Run env cmd.initDownloadCmd ["bob"] sample.blank
  = (sample.blank, rt.Fatal "no configuration").
Proof.
  apply (Run_without_configuration_or_client _ cmd.initDownloadCmd ["bob"]
           "" "" "no configuration" sample.blank);
    [reflexivity|reflexivity|by intros [_ ?]|by left].
Defined.

(** X23.  When the configuration and the client are there and
    [client.NewRequest] refuses the address, [Run] ends with that error
    and has done nothing.  The address it was given is the one without
    a query: [exercise] and [track] have no part in it. *)
Theorem Run_request_refused (env : Env) (flags : gmap string string)
    (args : list string) (uuid track base : string) (client : api.Client)
    (e : rt.Error) (w : rt.World) :
  flags !! "uuid" = Some uuid →
  flags !! "track" = Some track →
  ¬ (uuid = "" ∧ length args = 0%nat) →
  NewAPIConfig env = rt.Ok base →
  NewClient env = rt.Ok client →
  rejectsURL env
    (config.URL base "download" (if decide (uuid = "") then "latest" else uuid))
  = Some e →
  cmd.Run env flags args w = (w, rt.Fatal e).
Proof.
  intros Huuid Htrack Hsome Hcfg Hclient Hurl.
  rewrite (Run_proceeds env flags args uuid track) by done.
  unfold cmd.newDownloadRequest, api.NewRequest.
  by rewrite Hcfg, Hclient, Hurl.
Qed.

Lemma Run_request_refused_witness :
  let env :=
    mkEnv filepath.unix "exercism" "" (rt.Ok "https://api.test/v1")
      (rt.Ok (api.mkClient "/ws"))
      (λ target, if decide (target = "https://api.test/v1/download/%zz")
                 then Some "invalid URL escape" else None)
      (λ _, []) sample.server sample.decode (λ _, None) ".solution.json"
      (λ _, []) in
  cmd.Run env (<["uuid" := "%zz"]> cmd.initDownloadCmd) ["bob"] sample.blank
  = (sample.blank, rt.Fatal "invalid URL escape").
Proof.
  apply (Run_request_refused _ (<["uuid" := "%zz"]> cmd.initDownloadCmd)
           ["bob"] "%zz" "" "https://api.test/v1" (api.mkClient "/ws")
           "invalid URL escape" sample.blank).
  - reflexivity.
  - reflexivity.
  - by intros [? _].
  - reflexivity.
  - reflexivity.
  - vm_compute. reflexivity.
Defined.

(** What follows the first response for a request as
    [newDownloadRequest] makes it, with the zero envelope: an error for
    a response that is not a 200, and else the directory and the marker
    of the solution without a name, and no file. *)
Lemma finish_of_fresh (env : Env) (res : http.Response)
    (dr : cmd.downloadRequest) (w : rt.World) :
  cmd.payload dr = payload.zero →
  cmd.finish env res dr w
  = if decide (http.StatusCode res ≠ http.StatusOK) then (w, rt.Fatal "")
    else
      let made :=
        {[cmd.solutionDir env dr]}
        ∪ ({[filepath.Join (GOOS env)
               [api.Workspace (cmd.client dr);
                workspace.PathToParent (cmd.newSolution dr)]]}
           ∪ rt.dirs w) in
      match refusesCreate env (cmd.solutionMarker env dr) with
      | Some e =>
          (rt.mkWorld (rt.files w) made (rt.requests w) (rt.stderr w)
             (rt.stdout w) (rt.opened w) (rt.deferred w),
           rt.Fatal e)
      | None =>
          (rt.mkWorld
             (<[cmd.solutionMarker env dr := marshal env (cmd.newSolution dr)]>
                (rt.files w))
             made (rt.requests w) (rt.stderr w)
             (rt.stdout w +:+ rt.LF +:+ "Downloaded to" +:+ rt.LF
              +:+ cmd.solutionDir env dr +:+ rt.LF)
             (rt.opened w) (rt.deferred w),
           rt.Next tt)
      end.
Proof.
  destruct dr as [client req p]. cbn [cmd.payload]. intros ->.
  unfold cmd.finish, rt.bind at 1, cmd.respond.
  destruct (decide (http.StatusCode res ≠ http.StatusOK)) as [Hne|Heq].
  { by rewrite decide_False. }
  unfold rt.ret at 1, rt.bind at 1.
  unfold cmd.materialize, cmd.solutionMarker, cmd.solutionDir,
    workspace.SolutionPath, workspace.Write, rt.bind, cmd.BailOnError,
    rt.MkdirAll, cmd.fetchFiles.
  cbn -[filepath.Join]. cbv zeta.
  by destruct (refusesCreate env _).
Qed.

Lemma newDownloadRequest_client (env : Env) (uuid track exercise : string)
    (dr : cmd.downloadRequest) :
  cmd.newDownloadRequest env uuid track exercise = rt.Ok dr →
  NewClient env = rt.Ok (cmd.client dr).
Proof.
  unfold cmd.newDownloadRequest, api.NewRequest.
  destruct (NewAPIConfig env); [|done].
  destruct (NewClient env); [|done].
  destruct (rejectsURL env _); [done|].
  by intros [= <-].
Qed.

Lemma Run_of_response (env : Env) (flags : gmap string string)
    (args : list string) (uuid track : string) (dr : cmd.downloadRequest)
    (res : http.Response) (p : payload.downloadPayload) (w : rt.World) :
  flags !! "uuid" = Some uuid →
  flags !! "track" = Some track →
  ¬ (uuid = "" ∧ length args = 0%nat) →
  cmd.newDownloadRequest env uuid track
    (match args with a :: _ => a | [] => "" end) = rt.Ok dr →
  RoundTrip env (url.String_ (http.URL (cmd.request dr))) = rt.Ok res →
  Decode env (http.Body res) = rt.Ok p →
  cmd.Run env flags args w
  = rt.bind (cmd.finish env res dr) (λ _, rt.runDeferred)
      (rt.mkWorld (rt.files w) (rt.dirs w)
         (rt.requests w ++ [url.String_ (http.URL (cmd.request dr))])
         (rt.stderr w) (rt.stdout w) (rt.opened w) (rt.deferred w)).
Proof.
  intros Huuid Htrack Hsome Hdr Hres Hp.
  rewrite (Run_proceeds env flags args uuid track) by done. rewrite Hdr.
  unfold cmd.do, api.Do, rt.bind at 1 2 3, cmd.BailOnError.
  by rewrite Hres, Hp.
Qed.

Lemma Run_no_response (env : Env) (flags : gmap string string)
    (args : list string) (uuid track : string) (dr : cmd.downloadRequest)
    (e : rt.Error) (w : rt.World) :
  flags !! "uuid" = Some uuid →
  flags !! "track" = Some track →
  ¬ (uuid = "" ∧ length args = 0%nat) →
  cmd.newDownloadRequest env uuid track
    (match args with a :: _ => a | [] => "" end) = rt.Ok dr →
  RoundTrip env (url.String_ (http.URL (cmd.request dr))) = rt.Err e →
  cmd.Run env flags args w
  = (rt.mkWorld (rt.files w) (rt.dirs w)
       (rt.requests w ++ [url.String_ (http.URL (cmd.request dr))])
       (rt.stderr w) (rt.stdout w) (rt.opened w) (rt.deferred w),
     rt.Fatal e).
Proof.
  intros Huuid Htrack Hsome Hdr Hres.
  rewrite (Run_proceeds env flags args uuid track) by done. rewrite Hdr.
  unfold cmd.do, api.Do, rt.bind, cmd.BailOnError.
  by rewrite Hres.
Qed.

Lemma Run_undecodable (env : Env) (flags : gmap string string)
    (args : list string) (uuid track : string) (dr : cmd.downloadRequest)
    (res : http.Response) (e : rt.Error) (w : rt.World) :
  flags !! "uuid" = Some uuid →
  flags !! "track" = Some track →
  ¬ (uuid = "" ∧ length args = 0%nat) →
  cmd.newDownloadRequest env uuid track
    (match args with a :: _ => a | [] => "" end) = rt.Ok dr →
  RoundTrip env (url.String_ (http.URL (cmd.request dr))) = rt.Ok res →
  Decode env (http.Body res) = rt.Err e →
  cmd.Run env flags args w
  = (rt.mkWorld (rt.files w) (rt.dirs w)
       (rt.requests w ++ [url.String_ (http.URL (cmd.request dr))])
       (rt.stderr w) (rt.stdout w) (rt.opened w) (rt.deferred w),
     rt.Fatal e).
Proof.
  intros Huuid Htrack Hsome Hdr Hres Hp.
  rewrite (Run_proceeds env flags args uuid track) by done. rewrite Hdr.
  unfold cmd.do, api.Do, rt.bind, cmd.BailOnError.
  by rewrite Hres, Hp.
Qed.

(** X4.  When the first request gets no response, or a response whose
    body does not decode (whatever its status), [Run] ends with that
    error after the one request, with nothing written. *)
Theorem Run_first_response_unusable (env : Env) (flags : gmap string string)
    (args : list string) (uuid track : string) (dr : cmd.downloadRequest)
    (e : rt.Error) (w : rt.World) :
  flags !! "uuid" = Some uuid →
  flags !! "track" = Some track →
  ¬ (uuid = "" ∧ length args = 0%nat) →
  cmd.newDownloadRequest env uuid track
    (match args with a :: _ => a | [] => "" end) = rt.Ok dr →
  RoundTrip env (url.String_ (http.URL (cmd.request dr))) = rt.Err e
  ∨ (∃ res, RoundTrip env (url.String_ (http.URL (cmd.request dr))) = rt.Ok res
            ∧ Decode env (http.Body res) = rt.Err e) →
  cmd.Run env flags args w
  = (rt.mkWorld (rt.files w) (rt.dirs w)
       (rt.requests w ++ [url.String_ (http.URL (cmd.request dr))])
       (rt.stderr w) (rt.stdout w) (rt.opened w) (rt.deferred w),
     rt.Fatal e).
Proof.
  intros Huuid Htrack Hsome Hdr [Hres|(res & Hres & Hp)].
  - by apply (Run_no_response env flags args uuid track dr e).
  - by apply (Run_undecodable env flags args uuid track dr res e).
Qed.

Lemma Run_first_response_unusable_witness :
  cmd.Run sample.unix cmd.initDownloadCmd ["pangram"] sample.blank
  = (rt.mkWorld ∅ ∅ ["https://api.test/v1/download/latest?exercise_id=pangram"]
       "" "" [] [],
     rt.Fatal "connection refused").
Proof.
  apply (Run_first_response_unusable sample.unix cmd.initDownloadCmd
           ["pangram"] "" ""
           (cmd.mkDownloadRequest (api.mkClient "/ws")
              (http.mkRequest "GET"
                 (url.mkURL "https://api.test/v1/download/latest"
                    "exercise_id=pangram")) payload.zero)
           "connection refused" sample.blank).
  - reflexivity.
  - reflexivity.
  - by intros [_ ?].
  - vm_compute. reflexivity.
  - left. vm_compute. reflexivity.
Defined.

(** X5.  Whatever the flags, the arguments and the server, [Run] makes
    at most one request, and the only file it can create or change is
    the marker of the solution that has no track, exercise or id: the
    envelope of the first response never reaches it, so the loop over
    the files has nothing to go through. *)
Theorem Run_makes_one_request_and_fetches_no_file (env : Env)
    (flags : gmap string string) (args : list string) (w : rt.World) :
  let after := (cmd.Run env flags args w).1 in
  (rt.requests after = rt.requests w
   ∨ ∃ target, rt.requests after = rt.requests w ++ [target])
  ∧ ∀ path,
      rt.files after !! path ≠ rt.files w !! path →
      ∃ client,
        NewClient env = rt.Ok client
        ∧ path
          = filepath.Join (GOOS env)
              [filepath.Join (GOOS env)
                 [filepath.Join (GOOS env) [api.Workspace client; ""];
                  ""; ""];
               solutionFilename env].
Proof.
  cbv zeta.
  assert (∀ x : rt.World * rt.Outcome (),
            rt.requests x.1 = rt.requests w → rt.files x.1 = rt.files w →
            cmd.Run env flags args w = x →
            (rt.requests (cmd.Run env flags args w).1 = rt.requests w
             ∨ ∃ target,
                 rt.requests (cmd.Run env flags args w).1
                 = rt.requests w ++ [target])
            ∧ ∀ path,
                rt.files (cmd.Run env flags args w).1 !! path
                  ≠ rt.files w !! path →
                ∃ client,
                  NewClient env = rt.Ok client
                  ∧ path
                    = filepath.Join (GOOS env)
                        [filepath.Join (GOOS env)
                           [filepath.Join (GOOS env) [api.Workspace client; ""];
                            ""; ""];
                         solutionFilename env]) as Hsame.
  { intros x Hrequests Hfiles ->. split; [by left|].
    intros path Hpath. by rewrite Hfiles in Hpath. }
  destruct (flags !! "uuid") as [uuid|] eqn:Huuid; cycle 1.
  { eapply Hsame; [| |unfold cmd.Run, rt.bind, cmd.BailOnError, cmd.GetString;
                      by rewrite Huuid]; done. }
  destruct (decide (uuid = "" ∧ length args = 0%nat)) as [Husage|Hsome].
  { eapply Hsame; [| |unfold cmd.Run, rt.bind, cmd.BailOnError, cmd.GetString;
                      by rewrite Huuid, decide_True]; done. }
  destruct (flags !! "track") as [track|] eqn:Htrack; cycle 1.
  { eapply Hsame; [| |unfold cmd.Run, rt.bind, cmd.BailOnError, cmd.GetString;
                      by rewrite Huuid, decide_False, Htrack]; done. }
  destruct (cmd.newDownloadRequest env uuid track
              (match args with a :: _ => a | [] => "" end))
    as [dr|e] eqn:Hdr; cycle 1.
  { eapply Hsame; [| |by rewrite (Run_proceeds env flags args uuid track), Hdr];
      done. }
  clear Hsame.
  pose proof (newDownloadRequest_payload _ _ _ _ _ Hdr) as Hzero.
  pose proof (newDownloadRequest_client _ _ _ _ _ Hdr) as Hclient.
  destruct (RoundTrip env (url.String_ (http.URL (cmd.request dr))))
    as [res|e] eqn:Hres; cycle 1.
  { rewrite (Run_no_response env flags args uuid track dr e) by done.
    split; [right; by eexists|done]. }
  destruct (Decode env (http.Body res)) as [p|e] eqn:Hp; cycle 1.
  { rewrite (Run_undecodable env flags args uuid track dr res e) by done.
    split; [right; by eexists|done]. }
  rewrite (Run_of_response env flags args uuid track dr res p) by done.
  unfold rt.bind. rewrite finish_of_fresh by done.
  destruct (decide (http.StatusCode res ≠ http.StatusOK));
    [split; [right; by eexists|done]|].
  cbv zeta.
  destruct (refusesCreate env _); [split; [right; by eexists|done]|].
  rewrite runDeferred_world. cbn [fst rt.requests rt.files].
  split; [right; by eexists|].
  intros path Hpath. exists (cmd.client dr). split; [done|].
  destruct (decide (path = cmd.solutionMarker env dr)) as [->|Hne].
  - unfold cmd.solutionMarker, cmd.solutionDir, cmd.newSolution.
    by rewrite Hzero.
  - by rewrite lookup_insert_ne in Hpath.
Qed.

(** X6.  When the first response is a 200 whose body decodes, [Run]
    returns after that one request: it has made the directory of the
    solution without a name, put the marker there and announced the
    directory on standard output, whatever the envelope said. *)
Theorem Run_after_a_200 (env : Env) (flags : gmap string string)
    (args : list string) (uuid track : string) (dr : cmd.downloadRequest)
    (res : http.Response) (p : payload.downloadPayload) (w : rt.World) :
  flags !! "uuid" = Some uuid →
  flags !! "track" = Some track →
  ¬ (uuid = "" ∧ length args = 0%nat) →
  cmd.newDownloadRequest env uuid track
    (match args with a :: _ => a | [] => "" end) = rt.Ok dr →
  RoundTrip env (url.String_ (http.URL (cmd.request dr))) = rt.Ok res →
  Decode env (http.Body res) = rt.Ok p →
  http.StatusCode res = http.StatusOK →
  refusesCreate env (cmd.solutionMarker env dr) = None →
  ∃ w',
    cmd.Run env flags args w = (w', rt.Next tt)
    ∧ rt.requests w'
      = rt.requests w ++ [url.String_ (http.URL (cmd.request dr))]
    ∧ rt.files w'
      = <[cmd.solutionMarker env dr := marshal env (cmd.newSolution dr)]>
          (rt.files w)
    ∧ cmd.solutionDir env dr ∈ rt.dirs w'
    ∧ rt.stderr w' = rt.stderr w
    ∧ rt.stdout w'
      = rt.stdout w +:+ rt.LF +:+ "Downloaded to" +:+ rt.LF
        +:+ cmd.solutionDir env dr +:+ rt.LF
    ∧ cmd.solutionDir env dr
      = filepath.Join (GOOS env)
          [filepath.Join (GOOS env) [api.Workspace (cmd.client dr); ""];
           ""; ""].
Proof.
  intros Huuid Htrack Hsome Hdr Hres Hp Hstatus Hmarker.
  pose proof (newDownloadRequest_payload _ _ _ _ _ Hdr) as Hzero.
  rewrite (Run_of_response env flags args uuid track dr res p) by done.
  unfold rt.bind. rewrite finish_of_fresh by done.
  rewrite decide_False by (by intros Hne). cbv zeta. rewrite Hmarker.
  rewrite runDeferred_world. eexists. split; [reflexivity|].
  cbn [rt.requests rt.files rt.dirs rt.stderr rt.stdout].
  split_and!; try done.
  - set_solver.
  - unfold cmd.solutionDir, cmd.newSolution. by rewrite Hzero.
Qed.

Lemma Run_after_a_200_witness :
  ∃ w',
    cmd.Run sample.unix cmd.initDownloadCmd ["bob"] sample.blank
    = (w', rt.Next tt)
    ∧ rt.requests w' = ["https://api.test/v1/download/latest?exercise_id=bob"]
    ∧ rt.files w' = {[ "/ws/.solution.json" := sample.bytes "{}" ]}
    ∧ rt.stdout w'
      = rt.LF +:+ "Downloaded to" +:+ rt.LF +:+ "/ws" +:+ rt.LF.
Proof.
  destruct (Run_after_a_200 sample.unix cmd.initDownloadCmd ["bob"] "" ""
              (cmd.mkDownloadRequest (api.mkClient "/ws")
                 (http.mkRequest "GET"
                    (url.mkURL "https://api.test/v1/download/latest"
                       "exercise_id=bob")) payload.zero)
              (sample.reply 200 "8" "envelope")
              (sample.envelope ["bob.rb"; "lib/util.rb"]) sample.blank)
    as (w' & Hrun & Hreq & Hfiles & _ & _ & Hout & _).
  - reflexivity.
  - reflexivity.
  - by intros [_ ?].
  - vm_compute. reflexivity.
  - vm_compute. reflexivity.
  - vm_compute. reflexivity.
  - reflexivity.
  - reflexivity.
  - exists w'. split; [exact Hrun|]. split; [exact Hreq|].
    split; [exact Hfiles|exact Hout].
Defined.

(** ** What one turn of the loop leaves behind when it fails *)

Section turn.

Variable env : Env.
Variable dr : cmd.downloadRequest.
Variable solution : workspace.Solution.

Local Arguments filepath.Join : simpl never.
Local Arguments filepath.Dir : simpl never.
Local Arguments filepath.FromSlash : simpl never.

(** X7.  An entry whose request cannot be built, or gets no response,
    ends the run with that error: no handle is opened and nothing is
    created; a request is on record only when one could be built. *)
Theorem fetchFile_without_response (file : string) (e : rt.Error)
    (w : rt.World) :
  rejectsURL env (cmd.fileURL dr file) = Some e
  ∨ (rejectsURL env (cmd.fileURL dr file) = None
     ∧ RoundTrip env (cmd.fileURL dr file) = rt.Err e) →
  cmd.fetchFile env dr solution file w
  = (rt.mkWorld (rt.files w) (rt.dirs w)
       (match rejectsURL env (cmd.fileURL dr file) with
        | Some _ => rt.requests w
        | None => rt.requests w ++ [cmd.fileURL dr file]
        end)
       (rt.stderr w) (rt.stdout w) (rt.opened w) (rt.deferred w),
     rt.Fatal e).
Proof.
  unfold cmd.fetchFile, cmd.fileURL, rt.bind, cmd.BailOnError,
    api.NewRequest, api.Do.
  intros [->|[-> Hres]].
  - by destruct w.
  - cbn. by rewrite !String_fresh, Hres.
Qed.

(** X8.  An entry whose response is not a 200 ends the run with "Failed
    to download: <file>": no file or directory is created, and the body
    of the response stays open, its closing deferred. *)
Theorem fetchFile_not_OK (file : string) (res : http.Response)
    (w : rt.World) :
  rejectsURL env (cmd.fileURL dr file) = None →
  RoundTrip env (cmd.fileURL dr file) = rt.Ok res →
  http.StatusCode res ≠ http.StatusOK →
  cmd.fetchFile env dr solution file w
  = (rt.mkWorld (rt.files w) (rt.dirs w)
       (rt.requests w ++ [cmd.fileURL dr file]) (rt.stderr w) (rt.stdout w)
       (rt.Body (cmd.fileURL dr file) :: rt.opened w)
       (rt.Body (cmd.fileURL dr file) :: rt.deferred w),
     rt.Fatal ("Failed to download: " +:+ file)).
Proof.
  unfold cmd.fetchFile, cmd.fileURL. intros Hurl Hres Hstatus.
  unfold rt.bind, cmd.BailOnError, api.NewRequest, api.Do.
  rewrite Hurl. cbn. rewrite !String_fresh, Hres. cbn.
  by rewrite decide_True.
Qed.

(** X9.  An entry whose file the system refuses to create ends the run
    with the system's error: the directory of the file has been asked
    for, no file is created or changed, and the body of the response
    stays open. *)
Theorem fetchFile_create_refused (file : string) (res : http.Response)
    (e : rt.Error) (w : rt.World) :
  rejectsURL env (cmd.fileURL dr file) = None →
  RoundTrip env (cmd.fileURL dr file) = rt.Ok res →
  http.StatusCode res = http.StatusOK →
  http.Get (http.Header res) "Content-Length" ≠ "0" →
  refusesCreate env (cmd.destination env solution file) = Some e →
  cmd.fetchFile env dr solution file w
  = (rt.mkWorld (rt.files w)
       ({[filepath.Join (GOOS env)
            [workspace.Dir solution;
             filepath.Dir (GOOS env) (filepath.FromSlash (GOOS env) file)]]}
        ∪ rt.dirs w)
       (rt.requests w ++ [cmd.fileURL dr file]) (rt.stderr w) (rt.stdout w)
       (rt.Body (cmd.fileURL dr file) :: rt.opened w)
       (rt.Body (cmd.fileURL dr file) :: rt.deferred w),
     rt.Fatal e).
Proof.
  unfold cmd.fetchFile, cmd.fileURL, cmd.destination.
  intros Hurl Hres Hstatus Hlength Hcreate.
  unfold rt.bind, cmd.BailOnError, api.NewRequest, api.Do.
  rewrite Hurl. cbn. rewrite !String_fresh, Hres. cbn.
  rewrite decide_False by (by intros []).
  rewrite decide_False by done.
  unfold rt.bind, rt.MkdirAll, rt.Create. cbn. by rewrite Hcreate.
Qed.

(** X10.  An entry whose body breaks off while it is read ends the run
    with the error of the reading, and leaves the file behind with the
    bytes that had come. *)
Theorem fetchFile_body_breaks_off (file : string) (res : http.Response)
    (e : rt.Error) (w : rt.World) :
  rejectsURL env (cmd.fileURL dr file) = None →
  RoundTrip env (cmd.fileURL dr file) = rt.Ok res →
  http.StatusCode res = http.StatusOK →
  http.Get (http.Header res) "Content-Length" ≠ "0" →
  refusesCreate env (cmd.destination env solution file) = None →
  http.BodyErr res = Some e →
  ∃ w',
    cmd.fetchFile env dr solution file w = (w', rt.Fatal e)
    ∧ rt.files w'
      = <[cmd.destination env solution file := http.Body res]> (rt.files w)
    ∧ rt.opened w'
      = rt.File (cmd.destination env solution file)
        :: rt.Body (cmd.fileURL dr file) :: rt.opened w.
Proof.
  unfold cmd.fetchFile, cmd.fileURL, cmd.destination.
  intros Hurl Hres Hstatus Hlength Hcreate Hbody.
  unfold rt.bind, cmd.BailOnError, api.NewRequest, api.Do.
  rewrite Hurl. cbn. rewrite !String_fresh, Hres. cbn.
  rewrite decide_False by (by intros []).
  rewrite decide_False by done.
  unfold rt.bind, rt.MkdirAll, rt.Create. cbn. rewrite Hcreate. cbn.
  rewrite Hbody. cbn. eexists. split; [reflexivity|]. cbn.
  by rewrite lookup_insert_eq, insert_insert_eq.
Qed.

(** X22.  An entry that is served replaces whatever was at its
    destination with the body of its response (nothing checks for a file
    that is there already), and changes no other file. *)
Theorem fetchFile_replaces_the_file (file : string) (body : list byte)
    (w : rt.World) :
  cmd.served env dr solution file = Some body →
  rt.files (cmd.fetchFile env dr solution file w).1
  = <[cmd.destination env solution file := body]> (rt.files w).
Proof.
  intros Hserved. by rewrite (fetchFile_served env dr solution file body w).
Qed.

End turn.

Lemma fetchFile_without_response_witness :
  cmd.fetchFile (trouble.env []) (sample.holding ["%zz"]) sample.solution
    "%zz" sample.blank
  = (sample.blank, rt.Fatal "invalid URL escape")
  ∧ cmd.fetchFile (trouble.env []) (sample.holding ["absent.rb"])
      sample.solution "absent.rb" sample.blank
    = (rt.mkWorld ∅ ∅ ["https://files.test/abc/absent.rb"] "" "" [] [],
       rt.Fatal "connection refused").
Proof.
  split.
  - rewrite (fetchFile_without_response (trouble.env [])
               (sample.holding ["%zz"]) sample.solution "%zz"
               "invalid URL escape" sample.blank);
      [reflexivity|left; reflexivity].
  - rewrite (fetchFile_without_response (trouble.env [])
               (sample.holding ["absent.rb"]) sample.solution "absent.rb"
               "connection refused" sample.blank);
      [reflexivity|right; split; reflexivity].
Defined.

Lemma fetchFile_not_OK_witness :
  cmd.fetchFile sample.unix (sample.holding ["gone.rb"]) sample.solution
    "gone.rb" sample.blank
  = (rt.mkWorld ∅ ∅ ["https://files.test/abc/gone.rb"] "" ""
       [rt.Body "https://files.test/abc/gone.rb"]
       [rt.Body "https://files.test/abc/gone.rb"],
     rt.Fatal "Failed to download: gone.rb").
Proof.
  apply (fetchFile_not_OK sample.unix (sample.holding ["gone.rb"])
           sample.solution "gone.rb" (sample.reply 404 "9" "not found")
           sample.blank); [reflexivity|reflexivity|discriminate].
Defined.

Lemma fetchFile_create_refused_witness :
  let after :=
    cmd.fetchFile (trouble.env ["/ws/ruby/bob/abc/locked.rb"])
      (sample.holding ["locked.rb"]) sample.solution "locked.rb"
      sample.blank in
  after.2 = rt.Fatal "permission denied" ∧ rt.files after.1 = ∅.
Proof.
  cbv zeta.
  rewrite (fetchFile_create_refused
             (trouble.env ["/ws/ruby/bob/abc/locked.rb"])
             (sample.holding ["locked.rb"]) sample.solution "locked.rb"
             (sample.reply 200 "1" "z") "permission denied" sample.blank);
    [done|reflexivity|reflexivity|reflexivity|discriminate|].
  vm_compute. reflexivity.
Defined.

Lemma fetchFile_body_breaks_off_witness :
  ∃ w',
    cmd.fetchFile (trouble.env []) (sample.holding ["cut.rb"])
      sample.solution "cut.rb" sample.blank
    = (w', rt.Fatal "unexpected EOF")
    ∧ rt.files w' = {[ "/ws/ruby/bob/abc/cut.rb" := sample.bytes "puts" ]}.
Proof.
  destruct (fetchFile_body_breaks_off (trouble.env [])
              (sample.holding ["cut.rb"]) sample.solution "cut.rb"
              (http.mkResponse 200 {[ "Content-Length" := ["10"] ]}
                 (sample.bytes "puts") (Some "unexpected EOF"))
              "unexpected EOF" sample.blank)
    as (w' & Hrun & Hfiles & _).
  - reflexivity.
  - reflexivity.
  - reflexivity.
  - discriminate.
  - vm_compute. reflexivity.
  - reflexivity.
  - exists w'. split; [exact Hrun|]. rewrite Hfiles. decided.
Defined.

Lemma fetchFile_replaces_the_file_witness :
  let before :=
    rt.mkWorld {[ "/ws/ruby/bob/abc/bob.rb" := sample.bytes "my own work" ]}
      ∅ [] "" "" [] [] in
  rt.files
    (cmd.fetchFile sample.unix (sample.holding ["bob.rb"]) sample.solution
       "bob.rb" before).1
  = {[ "/ws/ruby/bob/abc/bob.rb" := sample.bytes "puts 1" ]}.
Proof.
  cbv zeta.
  rewrite (fetchFile_replaces_the_file sample.unix (sample.holding ["bob.rb"])
             sample.solution "bob.rb" (sample.bytes "puts 1"));
    [decided|vm_compute; reflexivity].
Defined.

(** ** What the loop leaves behind *)

Lemma forRange_app {A} (xs ys : list A) (body : A → rt.M unit)
    (w : rt.World) :
  rt.forRange (xs ++ ys) body w
  = rt.bind (rt.forRange xs body) (λ _, rt.forRange ys body) w.
Proof.
  revert w. induction xs as [|x xs IH]; intros w; [done|].
  cbn [app rt.forRange]. unfold rt.bind.
  destruct (body x w) as [w1 [[]| |]]; [|done..].
  rewrite IH. reflexivity.
Qed.

Section leftovers.

Variable env : Env.
Variable dr : cmd.downloadRequest.
Variable solution : workspace.Solution.

Local Arguments filepath.Join : simpl never.
Local Arguments filepath.Dir : simpl never.
Local Arguments filepath.FromSlash : simpl never.

Lemma written_app (xs ys : list string) (m : gmap string (list byte)) :
  cmd.written env dr solution (xs ++ ys) m
  = cmd.written env dr solution ys (cmd.written env dr solution xs m).
Proof. unfold cmd.written. apply foldl_app. Qed.

Lemma written_cons (x : string) (xs : list string)
    (m : gmap string (list byte)) :
  cmd.written env dr solution (x :: xs) m
  = cmd.written env dr solution xs
      (<[cmd.destination env solution x
         := default [] (cmd.served env dr solution x)]> m).
Proof. reflexivity. Qed.

(** X11.  The loop requests its entries in the order of the list, each
    at the base URL of the envelope with the entry appended as it is:
    over entries that are all served, these and no others are the
    requests, one for each entry. *)
Theorem fetchFiles_requests_in_order (w : rt.World) :
  let files := payload.Solution.Files (payload.Solution (cmd.payload dr)) in
  let base :=
    payload.Solution.FileDownloadBaseURL (payload.Solution (cmd.payload dr)) in
  Forall (λ file, is_Some (cmd.served env dr solution file)) files →
  rt.requests (cmd.fetchFiles env dr solution w).1
  = rt.requests w ++ ((λ file, base +:+ file) <$> files).
Proof.
  intros files base Hserved. unfold cmd.fetchFiles. fold files.
  destruct (fetchFiles_served env dr solution files w Hserved)
    as (w' & -> & _ & Hrequests & _).
  done.
Qed.

(** X12.  The loop stops at the first entry whose response is not a 200:
    the files of the entries before it stay as they were written, and no
    entry after it is requested. *)
Theorem fetchFiles_stops_at_first_failure (before : list string)
    (file : string) (after : list string) (res : http.Response)
    (w : rt.World) :
  Forall (λ file, is_Some (cmd.served env dr solution file)) before →
  rejectsURL env (cmd.fileURL dr file) = None →
  RoundTrip env (cmd.fileURL dr file) = rt.Ok res →
  http.StatusCode res ≠ http.StatusOK →
  ∃ w',
    rt.forRange (before ++ file :: after) (cmd.fetchFile env dr solution) w
    = (w', rt.Fatal ("Failed to download: " +:+ file))
    ∧ rt.files w' = cmd.written env dr solution before (rt.files w)
    ∧ rt.requests w'
      = rt.requests w ++ (cmd.fileURL dr <$> before) ++ [cmd.fileURL dr file].
Proof.
  intros Hbefore Hurl Hres Hstatus.
  destruct (fetchFiles_served env dr solution before w Hbefore)
    as (w1 & Hrun & Hfiles & Hrequests & _).
  rewrite forRange_app. unfold rt.bind at 1. rewrite Hrun.
  cbn [rt.forRange]. unfold rt.bind at 1.
  unfold cmd.fetchFile, rt.bind, cmd.BailOnError, api.NewRequest, api.Do.
  fold (cmd.fileURL dr file). rewrite Hurl. cbn.
  rewrite !String_fresh, Hres. cbn. rewrite decide_True by done.
  eexists. split; [reflexivity|]. cbn [rt.files rt.requests].
  split; [done|]. by rewrite Hrequests, <- app_assoc.
Qed.

(** X13.  When several entries have the same destination, the file
    holds the body of the last of them: over entries that are all
    served, an entry's file holds its body unless a later entry has the
    same destination. *)
Theorem fetchFiles_last_entry_wins (before : list string) (file : string)
    (after : list string) (w : rt.World) :
  Forall (λ file, is_Some (cmd.served env dr solution file))
    (before ++ file :: after) →
  cmd.destination env solution file
    ∉ cmd.destination env solution <$> after →
  rt.files
    (rt.forRange (before ++ file :: after) (cmd.fetchFile env dr solution) w).1
    !! cmd.destination env solution file
  = cmd.served env dr solution file.
Proof.
  intros Hserved Hlater.
  destruct (fetchFiles_served env dr solution _ w Hserved)
    as (w' & Hrun & Hfiles & _).
  rewrite Hrun. cbn [fst]. rewrite Hfiles.
  apply Forall_app in Hserved as [_ Hserved].
  inversion_clear Hserved as [|?? [body Hbody] _].
  rewrite written_app, written_cons.
  rewrite written_elsewhere by done.
  by rewrite lookup_insert_eq, Hbody.
Qed.

(** X14.  When the command returns after a loop over entries that are
    all served, every handle the loop opened has been closed by the
    deferred calls: the open handles are those of before. *)
Theorem finish_and_return_closes_every_handle (res : http.Response)
    (w : rt.World) :
  http.StatusCode res = http.StatusOK →
  refusesCreate env (cmd.solutionMarker env dr) = None →
  Forall (λ file, is_Some (cmd.served env dr (cmd.placed env dr) file))
    (payload.Solution.Files (payload.Solution (cmd.payload dr))) →
  rt.deferred w = [] →
  ∃ w',
    rt.bind (cmd.finish env res dr) (λ _, rt.runDeferred) w
    = (w', rt.Next tt)
    ∧ rt.opened w' = rt.opened w
    ∧ rt.deferred w' = [].
Proof.
  intros Hstatus Hmarker Hserved Hdeferred.
  unfold rt.bind at 1, cmd.finish, rt.bind at 1.
  rewrite respond_OK by done. unfold rt.bind at 1.
  rewrite materialize_placed by done. unfold cmd.fetchFiles, rt.bind at 1.
  edestruct (fetchFiles_served env dr (cmd.placed env dr)) as
    (w' & -> & _ & _ & _ & _ & Hopened & Hpending); [exact Hserved|].
  cbn [rt.opened rt.deferred] in *. unfold rt.Oprint.
  rewrite runDeferred_world. eexists. split; [reflexivity|].
  cbn [rt.opened rt.deferred]. split; [|done].
  rewrite Hopened, Hpending, Hdeferred, app_nil_r.
  apply release_all.
Qed.

End leftovers.

Lemma fetchFiles_requests_in_order_witness :
  rt.requests
    (cmd.fetchFiles sample.unix (sample.holding ["bob.rb"; "lib/util.rb"])
       sample.solution sample.blank).1
  = ["https://files.test/abc/bob.rb"; "https://files.test/abc/lib/util.rb"].
Proof.
  apply (fetchFiles_requests_in_order sample.unix
           (sample.holding ["bob.rb"; "lib/util.rb"]) sample.solution
           sample.blank).
  decided.
Defined.

Lemma fetchFiles_stops_at_first_failure_witness :
  ∃ w',
    rt.forRange ["bob.rb"; "gone.rb"; "lib/util.rb"]
      (cmd.fetchFile sample.unix (sample.holding []) sample.solution)
      sample.blank
    = (w', rt.Fatal "Failed to download: gone.rb")
    ∧ rt.files w' = {[ "/ws/ruby/bob/abc/bob.rb" := sample.bytes "puts 1" ]}
    ∧ rt.requests w'
      = ["https://files.test/abc/bob.rb"; "https://files.test/abc/gone.rb"].
Proof.
  destruct (fetchFiles_stops_at_first_failure sample.unix (sample.holding [])
              sample.solution ["bob.rb"] "gone.rb" ["lib/util.rb"]
              (sample.reply 404 "9" "not found") sample.blank)
    as (w' & Hrun & Hfiles & Hrequests).
  - decided.
  - reflexivity.
  - reflexivity.
  - discriminate.
  - exists w'. split; [exact Hrun|]. split.
    + rewrite Hfiles. decided.
    + rewrite Hrequests. reflexivity.
Defined.

Lemma fetchFiles_last_entry_wins_witness :
  rt.files
    (rt.forRange ["bob.rb"; "./bob.rb"; "lib/util.rb"]
       (cmd.fetchFile sample.unix (sample.holding []) sample.solution)
       sample.blank).1
    !! "/ws/ruby/bob/abc/bob.rb"
  = Some (sample.bytes "puts 2").
Proof.
  apply (fetchFiles_last_entry_wins sample.unix (sample.holding [])
           sample.solution ["bob.rb"] "./bob.rb" ["lib/util.rb"]
           sample.blank); decided.
Defined.

Lemma finish_and_return_closes_every_handle_witness :
  ∃ w',
    rt.bind
      (cmd.finish sample.unix (sample.reply 200 "8" "envelope")
         (sample.holding ["bob.rb"; "lib/util.rb"]))
      (λ _, rt.runDeferred) sample.blank
    = (w', rt.Next tt)
    ∧ rt.opened w' = []
    ∧ rt.deferred w' = [].
Proof.
  apply (finish_and_return_closes_every_handle sample.unix
           (sample.holding ["bob.rb"; "lib/util.rb"])
           (sample.reply 200 "8" "envelope") sample.blank);
    [reflexivity|reflexivity|decided|reflexivity].
Defined.

(** ** Directories *)

Section directories.

Variable goos : filepath.OS.

Local Arguments filepath.IsPathSeparator : simpl never.
Local Arguments filepath.Separator : simpl never.

Lemma plain_cons (c : ascii) (e : string) :
  filepath.plain goos (String c e)
  ↔ filepath.IsPathSeparator goos c = false ∧ filepath.plain goos e.
Proof.
  unfold filepath.plain. cbn [list_ascii_of_string].
  by rewrite Forall_cons.
Qed.

(** A path either has no separator, or is what stands before its last
    separator, that separator, and a last element. *)
Lemma uptoLastSeparator_split (path : string) :
  (filepath.uptoLastSeparator goos path = "" ∧ filepath.plain goos path)
  ∨ ∃ before c last,
      filepath.IsPathSeparator goos c = true
      ∧ filepath.plain goos last
      ∧ path = before +:+ String c last
      ∧ filepath.uptoLastSeparator goos path = before +:+ String c "".
Proof.
  induction path as [|x path IH].
  { left. split; [done|constructor]. }
  cbn [filepath.uptoLastSeparator].
  destruct IH as [[-> Hplain]|(before & c & last & Hc & Hlast & -> & ->)].
  - rewrite decide_True by done.
    destruct (filepath.IsPathSeparator goos x) eqn:Hx.
    + right. by exists "", x, path.
    + left. split; [done|]. by apply plain_cons.
  - rewrite decide_False by (by destruct before).
    right. by exists (String x before), c, last.
Qed.

(** The elements of a cleaned path are the elements [Clean] wrote, after
    an empty one when the path is rooted. *)
Lemma elements_Clean (path : string) :
  filepath.cleanElements goos path ≠ [] →
  filepath.elements goos (filepath.Clean goos path)
  = (if filepath.rooted goos path then [""] else [])
    ++ filepath.cleanElements goos path.
Proof.
  intros Hsome.
  pose proof (foldl_elements_cleaned goos path) as [Hall _].
  apply Forall_reverse in Hall.
  change (reverse _) with (filepath.cleanElements goos path) in Hall.
  assert (Forall (filepath.plain goos) (filepath.cleanElements goos path))
    as Hplain.
  { eapply Forall_impl; [exact Hall|]. by intros ? [? _]. }
  unfold filepath.Clean.
  destruct (filepath.cleanElements goos path) as [|e es] eqn:Hes; [done|].
  inversion_clear Hall as [|?? [He Hreal] _].
  destruct (joinElements_head goos e es He Hreal) as (c & rest & Hjoin & Hc).
  destruct (filepath.rooted goos path).
  - rewrite append_cons, append_nil, decide_False by done.
    cbn [filepath.elements]. rewrite Separator_isSep.
    by rewrite elements_joinElements.
  - rewrite append_nil, decide_False by (by rewrite Hjoin).
    by rewrite elements_joinElements.
Qed.

Lemma elements_Clean_nil (path : string) :
  filepath.cleanElements goos path = [] →
  Forall (λ e, ¬ filepath.real e)
    (filepath.elements goos (filepath.Clean goos path)).
Proof.
  intros Hnone. unfold filepath.Clean. rewrite Hnone.
  assert (¬ filepath.real "") as Hempty by (intros H; apply H; by left).
  assert (¬ filepath.real ".") as Hdot by (intros H; apply H; by right).
  destruct (filepath.rooted goos path).
  - rewrite append_cons, append_nil, decide_False by done.
    cbn. rewrite Separator_isSep. by repeat constructor.
  - cbn. destruct goos; by repeat constructor.
Qed.

Lemma cleanElements_real (path : string) :
  Forall filepath.real (filepath.cleanElements goos path).
Proof.
  pose proof (foldl_elements_cleaned goos path) as [Hall _].
  apply Forall_reverse in Hall.
  eapply Forall_impl; [exact Hall|]. by intros ? [_ ?].
Qed.

Lemma filter_real_all (l : list string) :
  Forall filepath.real l → filter filepath.real l = l.
Proof.
  induction 1 as [|e l He _ IH]; [done|]. by rewrite filter_cons_True, IH.
Qed.

Lemma filter_real_none (l : list string) :
  Forall (λ e, ¬ filepath.real e) l → filter filepath.real l = [].
Proof.
  induction 1 as [|e l He _ IH]; [done|]. by rewrite filter_cons_False.
Qed.

(** The real elements of a cleaned path are the elements [Clean]
    wrote. *)
Lemma filter_real_elements_Clean (path : string) :
  filter filepath.real (filepath.elements goos (filepath.Clean goos path))
  = filepath.cleanElements goos path.
Proof.
  destruct (decide (filepath.cleanElements goos path = [])) as [Hnil|Hsome].
  - rewrite Hnil. by apply filter_real_none, elements_Clean_nil.
  - rewrite elements_Clean by done. rewrite filter_app.
    rewrite (filter_real_all (filepath.cleanElements goos path))
      by apply cleanElements_real.
    destruct (filepath.rooted goos path); [|done].
    rewrite filter_cons_False; [done|]. intros H. apply H. by left.
Qed.

Lemma cleanElements_no_dotdot (path : string) :
  ".." ∉ filepath.elements goos path →
  filepath.cleanElements goos path
  = filter filepath.real (filepath.elements goos path).
Proof.
  intros Hpath. unfold filepath.cleanElements.
  rewrite foldl_step_no_dotdot by done.
  by rewrite app_nil_r, reverse_involutive.
Qed.

(** [Clean] looks at nothing but whether the path is rooted and its
    cleaned elements. *)
Lemma Clean_alike (a b : string) :
  filepath.rooted goos a = filepath.rooted goos b →
  filepath.cleanElements goos a = filepath.cleanElements goos b →
  filepath.Clean goos a = filepath.Clean goos b.
Proof. unfold filepath.Clean. by intros -> ->. Qed.

End directories.

Section parents.

Variable goos : filepath.OS.

Local Arguments filepath.IsPathSeparator : simpl never.
Local Arguments filepath.Separator : simpl never.

Lemma filter_real_empty_last (l : list string) :
  filter filepath.real (l ++ [""]) = filter filepath.real l.
Proof.
  rewrite filter_app, filter_cons_False, app_nil_r; [done|].
  intros H. apply H. by left.
Qed.

(** The elements of a path before its last separator are its elements
    but the last one, and an empty one. *)
Lemma elements_uptoLastSeparator (path : string) :
  ∃ init final,
    filepath.elements goos path = init ++ [final]
    ∧ (filepath.elements goos (filepath.uptoLastSeparator goos path) = [""]
       ∨ filepath.elements goos (filepath.uptoLastSeparator goos path)
         = init ++ [""])
    ∧ filter filepath.real
        (filepath.elements goos (filepath.uptoLastSeparator goos path))
      = filter filepath.real init.
Proof.
  destruct (uptoLastSeparator_split goos path)
    as [[-> Hplain]|(before & c & final & Hc & Hfinal & -> & ->)].
  - exists [], path. rewrite elements_of_plain by done.
    split; [done|]. split; [by left|]. cbn [filepath.elements].
    rewrite filter_cons_False; [done|]. intros H. apply H. by left.
  - exists (filepath.elements goos before), final.
    rewrite !elements_app_sep by done.
    rewrite (elements_of_plain goos final) by done.
    cbn [filepath.elements]. split; [done|].
    split; [by right|]. apply filter_real_empty_last.
Qed.

(** The directory part of a path without [".."] has none either, and
    its real elements are those of the path but the last element. *)
Lemma Dir_elements (path : string) (init : list string) (final : string) :
  filepath.elements goos path = init ++ [final] →
  ".." ∉ filepath.elements goos path →
  (".." ∉ filepath.elements goos (filepath.Dir goos path))
  ∧ filter filepath.real (filepath.elements goos (filepath.Dir goos path))
    = filter filepath.real init.
Proof.
  intros Hpath Hdots.
  destruct (elements_uptoLastSeparator path)
    as (init' & final' & Hpath' & Hshape & Hfilter).
  rewrite Hpath in Hpath'. apply app_inj_tail in Hpath' as [<- <-].
  assert (".." ∉ filepath.elements goos
                   (filepath.uptoLastSeparator goos path)) as Hupto.
  { rewrite Hpath in Hdots. apply not_elem_of_app in Hdots as [Hinit _].
    destruct Hshape as [->| ->].
    - by intros ?%list_elem_of_singleton.
    - apply not_elem_of_app. split; [done|].
      by intros ?%list_elem_of_singleton. }
  assert (filter filepath.real
            (filepath.elements goos (filepath.Dir goos path))
          = filter filepath.real init) as Hreal.
  { unfold filepath.Dir. rewrite filter_real_elements_Clean.
    by rewrite cleanElements_no_dotdot. }
  split; [|done].
  intros Hin.
  assert (".." ∈ filter filepath.real
                   (filepath.elements goos (filepath.Dir goos path))) as Hin'.
  { apply list_elem_of_filter. split; [apply dotdot_real|done]. }
  rewrite Hreal in Hin'. apply list_elem_of_filter in Hin' as [_ Hin'].
  apply Hdots. rewrite Hpath. apply elem_of_app. by left.
Qed.

Lemma rooted_before_separator (before : string) (c : ascii)
    (final : string) :
  filepath.rooted goos (before +:+ String c "")
  = filepath.rooted goos (before +:+ String c final).
Proof. by destruct before. Qed.

(** Below a directory that is named, for a path that has no [".."] and
    ends in a name: the directory of the joined path is the directory
    joined with the directory of the path. *)
Lemma Dir_Join (dir path name : string) :
  dir ≠ "" →
  ".." ∉ filepath.elements goos path →
  last (filepath.elements goos path) = Some name →
  filepath.real name →
  filepath.Dir goos (filepath.Join goos [dir; path])
  = filepath.Join goos [dir; filepath.Dir goos path].
Proof.
  intros Hdir Hdots Hlast Hname.
  apply last_Some in Hlast as [init Hpath].
  assert (name ≠ "..") as Hnodots.
  { intros ->. apply Hdots. rewrite Hpath. apply elem_of_app. right.
    by apply list_elem_of_singleton. }
  destruct (Dir_elements path init name Hpath Hdots) as [Hdirdots Hdirreal].
  cbn [filepath.Join]. rewrite !decide_False by done.
  rewrite !joinElements_cons. cbn [filepath.joinElements].
  set (sep := filepath.Separator goos).
  destruct (cleanElements_below goos dir path Hdir Hdots) as [Hr2 He2].
  destruct (cleanElements_below goos dir (filepath.Dir goos path) Hdir Hdirdots)
    as [Hr1 He1].
  fold sep in Hr1, He1, Hr2, He2.
  rewrite Hdirreal in He1.
  rewrite Hpath, filter_app, (filter_cons_True _ name) in He2 by done.
  cbn [filter list_filter] in He2. rewrite app_assoc in He2.
  rewrite <- He1 in He2.
  set (X1 := dir +:+ String sep (filepath.Dir goos path)) in *.
  set (X2 := dir +:+ String sep path) in *.
  destruct (Clean_elements goos X2) as [Hrs Hes].
  pose proof (elements_Clean goos X2) as Hshape.
  rewrite He2 in Hshape. specialize (Hshape ltac:(by destruct (filepath.cleanElements goos X1))).
  unfold filepath.Dir at 1. apply Clean_alike.
  - destruct (uptoLastSeparator_split goos (filepath.Clean goos X2))
      as [[Hup Hplain]|(before & c & final & Hc & Hfinal & Hs2 & Hup)].
    + rewrite Hup. rewrite elements_of_plain in Hshape by done.
      rewrite Hr1, <- Hr2.
      destruct (filepath.rooted goos X2); [|done].
      by destruct (filepath.cleanElements goos X1).
    + rewrite Hup, Hr1, <- Hr2, <- Hrs, Hs2.
      apply rooted_before_separator.
  - destruct (uptoLastSeparator_split goos (filepath.Clean goos X2))
      as [[Hup Hplain]|(before & c & final & Hc & Hfinal & Hs2 & Hup)].
    + rewrite Hup. rewrite elements_of_plain in Hshape by done.
      destruct (filepath.rooted goos X2);
        destruct (filepath.cleanElements goos X1) as [|? [|??]];
        try discriminate Hshape; done.
    + assert (filepath.rooted goos
                (filepath.uptoLastSeparator goos (filepath.Clean goos X2))
              = filepath.rooted goos X2) as Hrup.
      { rewrite Hup, <- Hrs, Hs2. apply rooted_before_separator. }
      unfold filepath.cleanElements at 1. rewrite Hrup, Hup.
      rewrite elements_app_sep by done.
      unfold filepath.cleanElements in Hes. rewrite Hrs in Hes.
      rewrite Hs2 in Hes, Hshape.
      rewrite elements_app_sep in Hes, Hshape by done.
      rewrite (elements_of_plain goos final) in Hes, Hshape by done.
      rewrite app_assoc in Hshape.
      apply app_inj_tail in Hshape as [Hbefore ->].
      rewrite !foldl_app in *. cbn [foldl filepath.elements] in *.
      set (F := foldl (filepath.cleanStep (filepath.rooted goos X2)) []
                  (filepath.elements goos before)) in *.
      unfold filepath.cleanStep at 1.
      rewrite decide_True by (by left).
      unfold filepath.cleanStep at 1 in Hes.
      rewrite !decide_False in Hes by done.
      change (reverse (foldl _ [] (filepath.elements goos X2)))
        with (filepath.cleanElements goos X2) in Hes.
      rewrite He2, reverse_cons in Hes.
      by apply app_inj_tail in Hes as [-> _].
Qed.

End parents.

(** ** What the loop makes, and where *)

Section places.

Variable env : Env.
Variable dr : cmd.downloadRequest.
Variable solution : workspace.Solution.

Local Arguments filepath.Join : simpl never.
Local Arguments filepath.Dir : simpl never.
Local Arguments filepath.FromSlash : simpl never.

(** Whatever becomes of an entry, the one directory a turn of the loop
    can ask for is the solution directory joined with the directory of
    the entry. *)
Lemma fetchFile_directories (file : string) (w : rt.World) (d : string) :
  d ∈ rt.dirs (cmd.fetchFile env dr solution file w).1 →
  d ∈ rt.dirs w
  ∨ d = filepath.Join (GOOS env)
          [workspace.Dir solution;
           filepath.Dir (GOOS env) (filepath.FromSlash (GOOS env) file)].
Proof.
  unfold cmd.fetchFile.
  unfold rt.bind, cmd.BailOnError, api.NewRequest, api.Do.
  destruct (rejectsURL env _); [by left|]. cbn.
  destruct (RoundTrip env _) as [res|]; [|by left]. cbn.
  destruct (decide (http.StatusCode res ≠ _)); [by left|].
  destruct (decide (http.Get _ _ = _)); [by left|].
  unfold rt.bind, rt.MkdirAll, rt.Create. cbn.
  destruct (refusesCreate env _); cbn;
    [|destruct (http.BodyErr res); cbn];
    (intros [->%elem_of_singleton|?]%elem_of_union; [by right|by left]).
Qed.

(** X15.  For an entry without [".."] and a solution directory that is
    named, every directory a turn of the loop asks for is within the
    solution directory. *)
Theorem fetchFile_directories_within (file : string) (w : rt.World)
    (d : string) :
  workspace.Dir solution ≠ "" →
  ".." ∉ filepath.elements (GOOS env) file →
  d ∈ rt.dirs (cmd.fetchFile env dr solution file w).1 →
  d ∉ rt.dirs w →
  filepath.within (GOOS env) (workspace.Dir solution) d = true.
Proof.
  intros Hdir Hdots Hd Hnew.
  apply fetchFile_directories in Hd as [?| ->]; [done|].
  apply Join_within; [done|].
  destruct (elements_uptoLastSeparator (GOOS env)
              (filepath.FromSlash (GOOS env) file))
    as (init & final & Hfile & _).
  rewrite <- elements_FromSlash in Hdots.
  by destruct (Dir_elements (GOOS env) _ init final Hfile Hdots).
Qed.

(** X16.  For an entry that is served, has no [".."] and ends in a name,
    below a solution directory that is named: the directory the turn
    asks for before it creates the file is the directory of that
    file. *)
Theorem fetchFile_makes_the_directory_of_the_file (file name : string)
    (body : list byte) (w : rt.World) :
  workspace.Dir solution ≠ "" →
  ".." ∉ filepath.elements (GOOS env) file →
  last (filepath.elements (GOOS env) file) = Some name →
  filepath.real name →
  cmd.served env dr solution file = Some body →
  filepath.Dir (GOOS env) (cmd.destination env solution file)
  ∈ rt.dirs (cmd.fetchFile env dr solution file w).1.
Proof.
  intros Hdir Hdots Hlast Hname Hserved.
  rewrite (fetchFile_served env dr solution file body w Hserved).
  cbn [fst rt.dirs]. unfold cmd.destination.
  rewrite <- elements_FromSlash in Hdots, Hlast.
  rewrite (Dir_Join (GOOS env) _ _ name) by done.
  set_solver.
Qed.

(** X17.  Entries without [".."] that have the same real elements (they
    differ in empty elements and ["."] only) have the same destination
    below a solution directory that is named. *)
Theorem destination_of_alike_entries (file file' : string) :
  workspace.Dir solution ≠ "" →
  ".." ∉ filepath.elements (GOOS env) file →
  ".." ∉ filepath.elements (GOOS env) file' →
  filter filepath.real (filepath.elements (GOOS env) file)
  = filter filepath.real (filepath.elements (GOOS env) file') →
  cmd.destination env solution file = cmd.destination env solution file'.
Proof.
  intros Hdir Hdots Hdots' Halike. unfold cmd.destination, filepath.Join.
  rewrite !decide_False by done. rewrite !joinElements_cons.
  cbn [filepath.joinElements].
  rewrite <- elements_FromSlash in Hdots, Hdots', Halike.
  rewrite <- (elements_FromSlash _ file') in Halike.
  destruct (cleanElements_below (GOOS env) _ _ Hdir Hdots) as [Hr He].
  destruct (cleanElements_below (GOOS env) _ _ Hdir Hdots') as [Hr' He'].
  apply Clean_alike; [by rewrite Hr, Hr'|by rewrite He, He', Halike].
Qed.

End places.

Lemma fetchFile_directories_within_witness :
  filepath.within filepath.unix "/ws/ruby/bob/abc" "/ws/ruby/bob/abc/lib"
  = true.
Proof.
  apply (fetchFile_directories_within sample.unix
           (sample.holding ["lib/util.rb"]) sample.solution "lib/util.rb"
           sample.blank "/ws/ruby/bob/abc/lib");
    [discriminate|decided|decided|decided].
Defined.

Lemma fetchFile_makes_the_directory_of_the_file_witness :
  "/ws/ruby/bob/abc/lib"
  ∈ rt.dirs
      (cmd.fetchFile sample.unix (sample.holding ["lib/util.rb"])
         sample.solution "lib/util.rb" sample.blank).1.
Proof.
  apply (fetchFile_makes_the_directory_of_the_file sample.unix
           (sample.holding ["lib/util.rb"]) sample.solution "lib/util.rb"
           "util.rb" (sample.bytes "x") sample.blank);
    [discriminate|decided|reflexivity|decided|vm_compute; reflexivity].
Defined.

Lemma destination_of_alike_entries_witness :
  cmd.destination sample.unix sample.solution "./lib//util.rb"
  = cmd.destination sample.unix sample.solution "lib/util.rb".
Proof.
  apply (destination_of_alike_entries sample.unix sample.solution
           "./lib//util.rb" "lib/util.rb");
    [discriminate|decided|decided|vm_compute; reflexivity].
Defined.

(** ** Before the loop *)

(** X18.  When the system refuses the marker of the solution, the
    command ends with the system's error before the loop: the two
    directories have been asked for, no file is requested and none is
    written. *)
Theorem finish_marker_refused (env : Env) (res : http.Response)
    (dr : cmd.downloadRequest) (e : rt.Error) (w : rt.World) :
  http.StatusCode res = http.StatusOK →
  refusesCreate env (cmd.solutionMarker env dr) = Some e →
  cmd.finish env res dr w
  = (rt.mkWorld (rt.files w)
       ({[cmd.solutionDir env dr]}
        ∪ ({[filepath.Join (GOOS env)
               [api.Workspace (cmd.client dr);
                workspace.Track (cmd.newSolution dr)]]}
           ∪ rt.dirs w))
       (rt.requests w) (rt.stderr w) (rt.stdout w) (rt.opened w)
       (rt.deferred w),
     rt.Fatal e).
Proof.
  intros Hstatus. unfold cmd.solutionMarker, cmd.solutionDir. intros Hmarker.
  unfold cmd.finish, rt.bind at 1. rewrite respond_OK by done.
  unfold cmd.materialize, rt.bind, workspace.SolutionPath, workspace.Write.
  cbn -[filepath.Join] in *. by rewrite Hmarker.
Qed.

Lemma finish_marker_refused_witness :
  let after :=
    cmd.finish (trouble.env ["/ws/ruby/bob/abc/.solution.json"])
      (sample.reply 200 "8" "envelope") (sample.holding ["bob.rb"])
      sample.blank in
  after.2 = rt.Fatal "permission denied"
  ∧ rt.requests after.1 = []
  ∧ rt.files after.1 = ∅.
Proof.
  cbv zeta.
  rewrite (finish_marker_refused
             (trouble.env ["/ws/ruby/bob/abc/.solution.json"])
             (sample.reply 200 "8" "envelope") (sample.holding ["bob.rb"])
             "permission denied" sample.blank);
    [done|reflexivity|vm_compute; reflexivity].
Defined.

(** X19.  On a response that is not a 200, for a request that holds an
    error of type [track_ambiguous]: standard error gets the two lines
    of the heading and then one command for each candidate track, the
    commands one after the other with no line feed between or after
    them; nothing else changes and the process exits with status 1. *)
Theorem respond_track_ambiguous_text (env : Env) (res : http.Response)
    (dr : cmd.downloadRequest) (w : rt.World) :
  http.StatusCode res ≠ http.StatusOK →
  payload.Error.Type_ (payload.Error (cmd.payload dr)) = "track_ambiguous" →
  cmd.respond env res dr w
  = (rt.mkWorld (rt.files w) (rt.dirs w) (rt.requests w)
       (rt.stderr w
        +:+ "You have multiple " +:+ solutionExercise env
        +:+ " exercises available to you." +:+ rt.LF
        +:+ "Specify the the --track flag:" +:+ rt.LF
        +:+ concatenated
              ((λ id, BinName env +:+ " download " +:+ solutionExercise env
                      +:+ " --track=" +:+ id)
               <$> payload.Error.PossibleTrackIDs
                     (payload.Error (cmd.payload dr))))
       (rt.stdout w) (rt.opened w) (rt.deferred w),
     rt.Exit 1).
Proof.
  intros Hstatus Htype. unfold cmd.respond.
  rewrite !decide_True by done.
  unfold rt.bind, rt.Eprint at 1 2. rewrite forRange_Eprint.
  cbn [rt.files rt.dirs rt.requests rt.stderr rt.stdout rt.opened
       rt.deferred].
  unfold rt.Exit_. do 2 f_equal. by rewrite !append_assoc.
Qed.

Lemma respond_track_ambiguous_text_witness :
  (cmd.respond sample.unix (sample.reply 400 "9" "ambiguous")
     (cmd.mkDownloadRequest (api.mkClient "/ws")
        (http.mkRequest "GET" (url.mkURL "" "")) sample.ambiguous)
     sample.blank).2
  = rt.Exit 1.
Proof.
  rewrite (respond_track_ambiguous_text sample.unix
             (sample.reply 400 "9" "ambiguous")
             (cmd.mkDownloadRequest (api.mkClient "/ws")
                (http.mkRequest "GET" (url.mkURL "" "")) sample.ambiguous)
             sample.blank); [reflexivity|discriminate|reflexivity].
Defined.

(** ** The query of the first request *)

Lemma occurrences_app (c : ascii) (a b : string) :
  occurrences c (a +:+ b) = (occurrences c a + occurrences c b)%nat.
Proof.
  unfold occurrences. induction a as [|x a IH]; [done|].
  rewrite append_cons. cbn [list_ascii_of_string].
  rewrite !filter_cons. destruct (decide (x = c)); cbn [length]; lia.
Qed.

Lemma upperhex_digit (n : N) :
  url.shouldEscape (url.upperhex n) = false.
Proof.
  unfold url.upperhex.
  destruct (N.to_nat n) as [|m]; [reflexivity|].
  do 15 (destruct m as [|m]; [reflexivity|]). reflexivity.
Qed.

(** An escaped value is made of unreserved characters, ['%'] and ['+']. *)
Lemma QueryEscape_characters (s : string) :
  Forall (λ c, url.shouldEscape c = false ∨ c = "%"%char ∨ c = "+"%char)
    (list_ascii_of_string (url.QueryEscape s)).
Proof.
  induction s as [|c s IH]; [constructor|].
  cbn [url.QueryEscape].
  destruct (Ascii.eqb c " ").
  { cbn [list_ascii_of_string]. constructor; [|done]. right. by right. }
  destruct (url.shouldEscape c) eqn:Hc; cbn [list_ascii_of_string].
  - constructor; [right; by left|].
    constructor; [left; apply upperhex_digit|].
    constructor; [left; apply upperhex_digit|done].
  - constructor; [by left|done].
Qed.

Lemma QueryEscape_occurrences (c : ascii) (s : string) :
  url.shouldEscape c = true → c ≠ "%"%char → c ≠ "+"%char →
  occurrences c (url.QueryEscape s) = 0%nat.
Proof.
  intros Hc Hpercent Hplus. unfold occurrences.
  pose proof (QueryEscape_characters s) as Hall.
  induction Hall as [|x l Hx _ IH]; [done|].
  rewrite filter_cons_False; [done|].
  intros ->. destruct Hx as [Hx|[Hx|Hx]]; congruence.
Qed.

(** The request for the latest solution of an exercise, as
    [newDownloadRequest] makes it. *)
Lemma newDownloadRequest_latest (env : Env) (base : string)
    (client : api.Client) (track exercise : string) :
  NewAPIConfig env = rt.Ok base →
  NewClient env = rt.Ok client →
  rejectsURL env (base +:+ "/download/latest") = None →
  cmd.newDownloadRequest env "" track exercise
  = rt.Ok
      (cmd.mkDownloadRequest client
         (http.mkRequest "GET"
            (url.mkURL (base +:+ "/download/latest")
               ("exercise_id=" +:+ url.QueryEscape exercise
                +:+ (if decide (track = "") then ""
                     else "&track_id=" +:+ url.QueryEscape track))))
         payload.zero).
Proof.
  intros Hcfg Hclient Hurl.
  unfold cmd.newDownloadRequest, api.NewRequest, config.URL.
  rewrite Hcfg, Hclient. rewrite !(decide_True (P := "" = "")) by done.
  change (base +:+ "/" +:+ "download" +:+ "/" +:+ "latest")
    with (base +:+ "/download/latest").
  rewrite Hurl. cbv beta iota. rewrite !(decide_True (P := "" = "")) by done.
  unfold url.Query. simpl.
  destruct (decide (track = "")) as [->|Htrack].
  - rewrite decide_False by (by intros Hne). rewrite append_nil_r.
    vm_compute. reflexivity.
  - rewrite decide_True by done. vm_compute. reflexivity.
Qed.

(** X20.  For an exercise and a track whose names are made of letters,
    digits, ['-'], ['_'], ['.'] and ['~'], the request for the latest
    solution has the names in its URL as they are. *)
Theorem newDownloadRequest_URL_of_plain_names (env : Env) (base : string)
    (client : api.Client) (track exercise : string) :
  NewAPIConfig env = rt.Ok base →
  NewClient env = rt.Ok client →
  rejectsURL env (base +:+ "/download/latest") = None →
  track ≠ "" →
  Forall (λ c, url.shouldEscape c = false) (list_ascii_of_string exercise) →
  Forall (λ c, url.shouldEscape c = false) (list_ascii_of_string track) →
  ∃ dr,
    cmd.newDownloadRequest env "" track exercise = rt.Ok dr
    ∧ url.String_ (http.URL (cmd.request dr))
      = base +:+ "/download/latest?exercise_id=" +:+ exercise
        +:+ "&track_id=" +:+ track.
Proof.
  intros Hcfg Hclient Hurl Htrack Hexercise Hnames.
  eexists. split; [by apply newDownloadRequest_latest|].
  unfold url.String_. simpl.
  rewrite !QueryEscape_unreserved by done.
  rewrite !(decide_False (P := track = "")) by done.
  rewrite append_assoc. reflexivity.
Qed.

Lemma newDownloadRequest_URL_of_plain_names_witness :
  ∃ dr,
    cmd.newDownloadRequest sample.unix "" "ruby" "two-fer" = rt.Ok dr
    ∧ url.String_ (http.URL (cmd.request dr))
      = "https://api.test/v1/download/latest?exercise_id=two-fer&track_id=ruby".
Proof.
  apply (newDownloadRequest_URL_of_plain_names sample.unix
           "https://api.test/v1" (api.mkClient "/ws") "ruby" "two-fer");
    [reflexivity|reflexivity|reflexivity|discriminate| |];
    repeat constructor.
Defined.

(** X21.  Whatever the names of the exercise and the track, the query of
    the request for the latest solution has one ['='] for each of its
    parameters and one ['&'] between two of them: a name cannot bring a
    parameter of its own. *)
Theorem newDownloadRequest_query_has_its_parameters_only (env : Env)
    (base : string) (client : api.Client) (track exercise : string) :
  NewAPIConfig env = rt.Ok base →
  NewClient env = rt.Ok client →
  rejectsURL env (base +:+ "/download/latest") = None →
  ∃ dr,
    cmd.newDownloadRequest env "" track exercise = rt.Ok dr
    ∧ occurrences "=" (url.RawQuery (http.URL (cmd.request dr)))
      = (if decide (track = "") then 1 else 2)%nat
    ∧ occurrences "&" (url.RawQuery (http.URL (cmd.request dr)))
      = (if decide (track = "") then 0 else 1)%nat.
Proof.
  intros Hcfg Hclient Hurl.
  eexists. split; [by apply newDownloadRequest_latest|]. simpl.
  rewrite !occurrences_app.
  destruct (decide (track = "")).
  - rewrite !QueryEscape_occurrences by (done || discriminate). done.
  - rewrite !occurrences_app.
    rewrite !QueryEscape_occurrences by (done || discriminate). done.
Qed.

Lemma newDownloadRequest_query_has_its_parameters_only_witness :
  ∃ dr,
    cmd.newDownloadRequest sample.unix "" "" "bob&track_id=go" = rt.Ok dr
    ∧ url.RawQuery (http.URL (cmd.request dr))
      = "exercise_id=bob%26track_id%3Dgo"
    ∧ occurrences "&" (url.RawQuery (http.URL (cmd.request dr))) = 0%nat.
Proof.
  destruct (newDownloadRequest_query_has_its_parameters_only sample.unix
              "https://api.test/v1" (api.mkClient "/ws") "" "bob&track_id=go")
    as (dr & Hdr & _ & Hamp); [reflexivity..|].
  exists dr. split; [exact Hdr|]. split; [|exact Hamp].
  assert (dr = cmd.mkDownloadRequest (api.mkClient "/ws")
                 (http.mkRequest "GET"
                    (url.mkURL "https://api.test/v1/download/latest"
                       "exercise_id=bob%26track_id%3Dgo")) payload.zero)
    as ->; [|reflexivity].
  assert (rt.Ok dr
          = rt.Ok (cmd.mkDownloadRequest (api.mkClient "/ws")
                     (http.mkRequest "GET"
                        (url.mkURL "https://api.test/v1/download/latest"
                           "exercise_id=bob%26track_id%3Dgo")) payload.zero))
    as Heq by (rewrite <- Hdr; vm_compute; reflexivity).
  by injection Heq.
Defined.
